(** * SYNAPSE neural connection layer: the hardware-software balancing algorithm

    A shallow embedding of [src/algorithms/balancing_algorithm.hpp] and the
    properties of its decision engine: the integration-debt index (IDI)
    calculator, the PID controller, the hardware/software balancer, the IDI
    brake curve, the quarantine gate and the combined throttle.

    Every function of the header is written once, over an abstract
    arithmetic [DoubleOps] that stands for the C++ type [double].  Two
    instances are given:

    - [Q_double]: exact rational arithmetic, the usual idealisation of
      floating point (every finite double is a rational, and no operation
      rounds, overflows or yields a NaN).  The properties that do not hinge
      on a rounding are stated and proved in it: the comparisons against
      the thresholds, the piecewise formulas, the ranges and the
      monotonicity;
    - [binary64]: the kernel's IEEE 754 binary64 numbers, on which the very
      same definitions run.  The properties in which a rounding decides a
      branch or an integer are stated and proved there: the truncated
      product of the prediction, the accumulated integral of the PID
      controller and the window mean of the balancer.  The decisions that
      only compare numbers are proved there as well, for every value that
      is not a NaN, and the concrete scenarios are replayed with the
      rounding the compiled program performs. *)

From Stdlib Require Import ZArith QArith Qabs Qround Qminmax Qfield Lqa Lia.
From Stdlib Require Import String Bool List.
From Stdlib Require Import PrimFloat SpecFloat FloatOps FloatAxioms Uint63.
Import ListNotations.

Set Implicit Arguments.

(* ================================================================== *)
(** * The C++ scalar types *)
(* ================================================================== *)

(** ** [double] *)

(** The operations the header performs on doubles.  [dlit] reads a decimal
    literal of the source; [of_int] is the implicit conversion of an [int]
    (or a small [size_t]) to [double]; [to_int] is [static_cast<int>], which
    truncates toward zero and is undefined ([None]) when the truncated value
    does not fit an [int]. *)
Class DoubleOps (double : Type) : Type := {
  dlit : Q -> double;
  dadd : double -> double -> double;
  dsub : double -> double -> double;
  dmul : double -> double -> double;
  ddiv : double -> double -> double;
  dopp : double -> double;
  dabs : double -> double;
  dltb : double -> double -> bool;
  dleb : double -> double -> bool;
  deqb : double -> double -> bool;
  of_int : Z -> double;
  to_int : double -> option Z
}.

Arguments dlit {double _} q%_Q.

Declare Scope double_scope.
Delimit Scope double_scope with double.

Notation "x + y" := (dadd x y) : double_scope.
Notation "x - y" := (dsub x y) : double_scope.
Notation "x * y" := (dmul x y) : double_scope.
Notation "x / y" := (ddiv x y) : double_scope.
Notation "- x" := (dopp x) : double_scope.
Notation "x <? y" := (dltb x y) : double_scope.
Notation "x >? y" := (dltb y x) : double_scope.
Notation "x <=? y" := (dleb x y) : double_scope.
Notation "x >=? y" := (dleb y x) : double_scope.
Notation "x =? y" := (deqb x y) : double_scope.

(** ** [int] *)

(** A C++ [int] is a 32-bit two's complement integer.  Signed overflow is
    undefined behaviour, so the checked addition has no result there. *)
Definition INT_MIN : Z := - 2 ^ 31.
Definition INT_MAX : Z := 2 ^ 31 - 1.

Definition in_int (z : Z) : bool := ((INT_MIN <=? z) && (z <=? INT_MAX))%Z.

Definition int_add (a b : Z) : option Z :=
  if in_int (a + b) then Some (a + b)%Z else None.

(** [std::max] on [int]: [(a < b) ? b : a]. *)
Definition int_max (a b : Z) : Z := if (a <? b)%Z then b else a.

(** Sequencing of computations that may be undefined. *)
Definition bind {A B : Type} (m : option A) (k : A -> option B) : option B :=
  match m with
  | Some a => k a
  | None => None
  end.

Notation "x <- m ;; k" := (bind m (fun x => k))
  (at level 61, m at next level, right associativity).

(** ** The exact instance *)

Definition Qltb (a b : Q) : bool :=
  (Qnum a * QDen b <? Qnum b * QDen a)%Z.

(** Truncation toward zero, as [static_cast<int>] does on a finite value. *)
Definition Qtrunc (q : Q) : Z := Z.quot (Qnum q) (QDen q).

Definition Q_to_int (q : Q) : option Z :=
  if in_int (Qtrunc q) then Some (Qtrunc q) else None.

#[export] Instance Q_double : DoubleOps Q := {|
  dlit := fun q => q;
  dadd := Qplus;
  dsub := Qminus;
  dmul := Qmult;
  ddiv := Qdiv;
  dopp := Qopp;
  dabs := Qabs;
  dltb := Qltb;
  dleb := Qle_bool;
  deqb := Qeq_bool;
  of_int := inject_Z;
  to_int := Q_to_int
|}.

(** ** The IEEE 754 binary64 instance *)

(** An integer of at most 53 significant bits converts exactly. *)
Definition float_of_Z (z : Z) : float :=
  match z with
  | Z0 => PrimFloat.of_uint63 0
  | Zpos _ => PrimFloat.of_uint63 (Uint63.of_Z z)
  | Zneg p => PrimFloat.opp (PrimFloat.of_uint63 (Uint63.of_Z (Zpos p)))
  end.

(** A decimal literal: numerator and denominator of the literals of the
    header convert exactly, and the division rounds to nearest, so the
    result is the double nearest the literal, as the compiler produces. *)
Definition float_lit (q : Q) : float :=
  PrimFloat.div (float_of_Z (Qnum q)) (float_of_Z (QDen q)).

(** The integer part of a floating-point number [(-1)^s * m * 2^e]. *)
Definition float_trunc (x : float) : option Z :=
  match Prim2SF x with
  | S754_zero _ => Some 0%Z
  | S754_finite s m e =>
      let a := match e with
               | Z0 => Zpos m
               | Zpos k => (Zpos m * 2 ^ Zpos k)%Z
               | Zneg k => (Zpos m / 2 ^ Zpos k)%Z
               end in
      Some (if s then (- a)%Z else a)
  | S754_infinity _ => None
  | S754_nan => None
  end.

Definition float_to_int (x : float) : option Z :=
  z <- float_trunc x ;; if in_int z then Some z else None.

#[export] Instance binary64 : DoubleOps float := {|
  dlit := float_lit;
  dadd := PrimFloat.add;
  dsub := PrimFloat.sub;
  dmul := PrimFloat.mul;
  ddiv := PrimFloat.div;
  dopp := PrimFloat.opp;
  dabs := PrimFloat.abs;
  dltb := PrimFloat.ltb;
  dleb := PrimFloat.leb;
  deqb := PrimFloat.eqb;
  of_int := float_of_Z;
  to_int := float_to_int
|}.

(** ** The [<algorithm>] helpers on doubles *)

Section Algorithm.
Context {double : Type} `{DoubleOps double}.
Local Open Scope double_scope.

(** [std::min(a, b)] is [(b < a) ? b : a]. *)
Definition std_min (a b : double) : double := if b <? a then b else a.

(** [std::max(a, b)] is [(a < b) ? b : a]. *)
Definition std_max (a b : double) : double := if a <? b then b else a.

(** [std::clamp(v, lo, hi)] is [(v < lo) ? lo : (hi < v) ? hi : v]. *)
Definition std_clamp (v lo hi : double) : double :=
  if v <? lo then lo else if hi <? v then hi else v.

End Algorithm.

(** ** [std::chrono::system_clock] *)

(** A [time_point] is a number of clock ticks since the epoch.  The tick
    period of [system_clock] is implementation-defined (a nanosecond in
    libstdc++); the model takes the number of ticks per second as a
    parameter.  Reading the clock is an input of the functions that do it. *)
Definition time_point : Type := Z.
Bind Scope Z_scope with time_point.

(** [duration_cast<std::chrono::hours>]: integer division of the tick count,
    truncating toward zero. *)
Definition duration_cast_hours (ticks_per_second : positive) (d : Z) : Z :=
  Z.quot d (3600 * Zpos ticks_per_second).

(** The tick count of a [time_point] and of a duration of [system_clock] is
    a signed 64-bit integer (in libstdc++, libc++ and the MSVC library).
    Subtracting two time points subtracts their tick counts; signed overflow
    is undefined behaviour, so the difference has no result when it leaves
    the range. *)
Definition TICKS_MIN : Z := - 2 ^ 63.
Definition TICKS_MAX : Z := 2 ^ 63 - 1.

Definition in_ticks (z : Z) : bool :=
  ((TICKS_MIN <=? z) && (z <=? TICKS_MAX))%Z.

Definition time_sub (a b : time_point) : option Z :=
  if in_ticks (a - b) then Some (a - b)%Z else None.

(* ================================================================== *)
(** * Constants and thresholds *)
(* ================================================================== *)

Module Thresholds.
Section Thresholds.
Context {double : Type} `{DoubleOps double}.

(** IDI thresholds *)
Definition IDI_HEALTHY : double := dlit 3.0.
Definition IDI_WARNING : double := dlit 5.0.
Definition IDI_CRITICAL : double := dlit 7.0.
Definition IDI_QUARANTINE : double := dlit 10.0.

(** Hardware constraints *)
Definition CPU_WARNING : double := dlit 70.0.
Definition CPU_CRITICAL : double := dlit 85.0.
Definition CPU_EMERGENCY : double := dlit 95.0.

Definition MEMORY_WARNING : double := dlit 75.0.
Definition MEMORY_CRITICAL : double := dlit 90.0.

Definition TEMPERATURE_WARNING : double := dlit 70.0.
Definition TEMPERATURE_CRITICAL : double := dlit 85.0.
Definition TEMPERATURE_SHUTDOWN : double := dlit 95.0.

(** Balancing *)
Definition HW_SW_IMBALANCE_THRESHOLD : double := dlit 0.3.
Definition LATENCY_WARNING_MS : double := dlit 100.0.
Definition LATENCY_CRITICAL_MS : double := dlit 500.0.

End Thresholds.
End Thresholds.

(* ================================================================== *)
(** * Enumerations *)
(* ================================================================== *)

Module SeverityLevel.
Inductive t : Set :=
| HEALTHY
| WARNING
| CRITICAL
| QUARANTINE.
End SeverityLevel.

Module MitigationAction.
Inductive t : Set :=
| NONE
| THROTTLE
| BRAKE
| QUARANTINE
| REBALANCE
| ALERT
| AUTO_INTEGRATE.
End MitigationAction.

Module ComponentType.
Inductive t : Set :=
| HARDWARE
| SOFTWARE
| FIRMWARE
| HYBRID.
End ComponentType.

(* ================================================================== *)
(** * Data structures *)
(* ================================================================== *)

(** Each struct is a record [t] in a module of its name, so that the
    members keep their names ([TelemetryData.component_id],
    [MitigationResult.component_id], ...). *)

Module TelemetryData.
Record t (double : Type) : Type := {
  component_id : string;
  timestamp : time_point;
  cpu_usage : double;           (* 0-100 *)
  memory_usage : double;        (* 0-100 *)
  io_latency_ms : double;
  network_latency_ms : double;
  error_rate : double;          (* 0-1 *)
  throughput : double;          (* requests/sec *)
  temperature : option double;        (* Hardware only (Celsius) *)
  power_consumption : option double   (* Hardware only (Watts) *)
}.
End TelemetryData.

(** A default-constructed [MitigationResult] has [idi_score = 0.0],
    [throttle_level = 1.0] and [imbalance = 0.0]; the functions that build
    one list every member. *)
Module MitigationResult.
Record t (double : Type) : Type := {
  action : MitigationAction.t;
  component_id : string;
  reason : string;
  timestamp : time_point;
  idi_score : double;
  throttle_level : double;
  imbalance : double
}.
End MitigationResult.

Module BalanceMetrics.
Record t (double : Type) : Type := {
  hw_capacity : double;
  sw_demand : double;
  imbalance : double;
  timestamp : time_point
}.
End BalanceMetrics.

(* ================================================================== *)
(** * IDI calculator *)
(* ================================================================== *)

(** Integration Debt Index:
    IDI = (days since last integration) x (LoC changed / 1000) x
    (dependencies / 10). *)
Module IDICalculator.
Section IDICalculator.
Context {double : Type} `{DoubleOps double}.
Local Open Scope double_scope.

Definition calculate (days loc_changed dependencies : Z) : double :=
  let d := of_int (int_max days 0) in
  let l := of_int (int_max loc_changed 0) / dlit 1000.0 in
  let dep := of_int (int_max dependencies 1) / dlit 10.0 in
  d * l * dep.

Definition getSeverity (idi : double) : SeverityLevel.t :=
  if idi <? Thresholds.IDI_HEALTHY then SeverityLevel.HEALTHY
  else if idi <? Thresholds.IDI_WARNING then SeverityLevel.WARNING
  else if idi <? Thresholds.IDI_QUARANTINE then SeverityLevel.CRITICAL
  else SeverityLevel.QUARANTINE.

(** Predict the future IDI from the current trend.  The two [int] additions
    and the conversion of the projected lines of code to [int] are undefined
    when they leave the range of [int]; the result is [None] there. *)
Definition predictIDI (current_days current_loc dependencies days_ahead : Z)
    (daily_loc_rate : double) : option double :=
  future_days <- int_add current_days days_ahead ;;
  extra_loc <- to_int (daily_loc_rate * of_int days_ahead) ;;
  future_loc <- int_add current_loc extra_loc ;;
  Some (calculate future_days future_loc dependencies).

End IDICalculator.
End IDICalculator.

(* ================================================================== *)
(** * PID controller *)
(* ================================================================== *)

(** PID controller for adaptive throttling: the state of an instance is the
    record [t]; a member function that mutates the instance returns the new
    state next to its result. *)
Module PIDController.
Section PIDController.
Context {double : Type} `{DoubleOps double}.
Local Open Scope double_scope.

Record t : Type := {
  kp_ : double;
  ki_ : double;
  kd_ : double;
  integral_ : double;
  previous_error_ : double;
  target_ : double
}.

(** Anti-windup limits *)
Definition INTEGRAL_MIN : double := - dlit 50.0.
Definition INTEGRAL_MAX : double := dlit 50.0.

(** The constructor; [default] is the instance built from the default
    arguments [kp = 0.5, ki = 0.1, kd = 0.05, target = 70.0]. *)
Definition make (kp ki kd target : double) : t :=
  {| kp_ := kp; ki_ := ki; kd_ := kd;
     integral_ := dlit 0.0; previous_error_ := dlit 0.0;
     target_ := target |}.

Definition default : t := make (dlit 0.5) (dlit 0.1) (dlit 0.05) (dlit 70.0).

Definition setTarget (self : t) (target : double) : t :=
  {| kp_ := kp_ self; ki_ := ki_ self; kd_ := kd_ self;
     integral_ := integral_ self; previous_error_ := previous_error_ self;
     target_ := target |}.

Definition reset (self : t) : t :=
  {| kp_ := kp_ self; ki_ := ki_ self; kd_ := kd_ self;
     integral_ := dlit 0.0; previous_error_ := dlit 0.0;
     target_ := target_ self |}.

(** Calculate the throttle adjustment for the current utilisation. *)
Definition calculate (self : t) (current_value : double) : double * t :=
  let error := target_ self - current_value in
  (* Proportional term *)
  let p_term := kp_ self * error in
  (* Integral term with anti-windup *)
  let integral :=
    std_clamp (integral_ self + error) INTEGRAL_MIN INTEGRAL_MAX in
  let i_term := ki_ self * integral in
  (* Derivative term *)
  let d_term := kd_ self * (error - previous_error_ self) in
  (* Combined PID output, normalized *)
  let adjustment := (p_term + i_term + d_term) / dlit 100.0 in
  (* Clamp to reasonable range *)
  (std_clamp adjustment (- dlit 0.3) (dlit 0.3),
   {| kp_ := kp_ self; ki_ := ki_ self; kd_ := kd_ self;
      integral_ := integral; previous_error_ := error;
      target_ := target_ self |}).

(** The state after feeding the controller a sequence of readings. *)
Fixpoint run (self : t) (readings : list double) : t :=
  match readings with
  | [] => self
  | v :: rest => run (snd (calculate self v)) rest
  end.

End PIDController.
Arguments t : clear implicits.
End PIDController.

(* ================================================================== *)
(** * Hardware-software balancer *)
(* ================================================================== *)

(** The balancer keeps a history of its measurements (a [std::deque],
    here a list with the oldest entry first) and the target throughput.
    The mutex that serialises the accesses to the history is not modelled:
    the functions below describe one call running alone. *)
Module HardwareSoftwareBalancer.
Section HardwareSoftwareBalancer.
Context {double : Type} `{DoubleOps double}.
Local Open Scope double_scope.

Record t : Type := {
  history_ : list (BalanceMetrics.t double);
  target_throughput_ : double
}.

Definition moving_avg_window_ : nat := 10.

Definition make (target_throughput : double) : t :=
  {| history_ := []; target_throughput_ := target_throughput |}.

Definition default : t := make (dlit 1000.0).

(** Hardware capacity score (0-100): higher means more capacity available. *)
Definition calculateHardwareCapacity (telemetry : TelemetryData.t double)
    : double :=
  (* CPU capacity (inverse) *)
  let cpu_capacity := dlit 100.0 - TelemetryData.cpu_usage telemetry in
  (* Memory capacity (inverse) *)
  let memory_capacity := dlit 100.0 - TelemetryData.memory_usage telemetry in
  (* Temperature factor *)
  let temp_factor :=
    match TelemetryData.temperature telemetry with
    | Some temp =>
        if temp >? Thresholds.TEMPERATURE_CRITICAL then dlit 0.3
        else if temp >? Thresholds.TEMPERATURE_WARNING then dlit 0.7
        else dlit 1.0
    | None => dlit 1.0
    end in
  (* Weighted average *)
  (cpu_capacity * dlit 0.4) + (memory_capacity * dlit 0.4)
  + (dlit 100.0 * temp_factor * dlit 0.2).

(** Software demand score (0-100): higher means more resources demanded. *)
Definition calculateSoftwareDemand (self : t)
    (telemetry : TelemetryData.t double) : double :=
  (* Throughput-based demand *)
  let throughput_demand :=
    std_min
      ((TelemetryData.throughput telemetry / target_throughput_ self)
       * dlit 100.0)
      (dlit 100.0) in
  (* Latency-based urgency *)
  let latency_urgency :=
    if TelemetryData.io_latency_ms telemetry >? Thresholds.LATENCY_CRITICAL_MS
    then dlit 100.0
    else if TelemetryData.io_latency_ms telemetry >? Thresholds.LATENCY_WARNING_MS
    then dlit 70.0
    else (TelemetryData.io_latency_ms telemetry / Thresholds.LATENCY_WARNING_MS)
         * dlit 50.0 in
  (* Error rate-based stress *)
  let error_stress :=
    std_min (TelemetryData.error_rate telemetry * dlit 1000.0) (dlit 100.0) in
  (* Weighted average *)
  (throughput_demand * dlit 0.5) + (latency_urgency * dlit 0.3)
  + (error_stress * dlit 0.2).

(** Imbalance score: negative when the hardware is insufficient, positive
    when it is idle, zero when balanced. *)
Definition calculateImbalance (hw_capacity sw_demand : double) : double :=
  if hw_capacity + sw_demand =? dlit 0.0 then dlit 0.0
  else (hw_capacity - sw_demand) / dlit 100.0.

(** The balancing action for an imbalance.  [now] is the reading of the
    clock that stamps the result. *)
Definition getBalancingAction (imbalance : double) (component_id : string)
    (current_throttle : double) (now : time_point)
    : MitigationResult.t double :=
  let threshold := Thresholds.HW_SW_IMBALANCE_THRESHOLD in
  if dabs imbalance <? threshold then
    (* Balanced *)
    {| MitigationResult.action := MitigationAction.NONE;
       MitigationResult.component_id := component_id;
       MitigationResult.reason := "System is balanced";
       MitigationResult.timestamp := now;
       MitigationResult.idi_score := dlit 0.0;
       MitigationResult.throttle_level := current_throttle;
       MitigationResult.imbalance := imbalance |}
  else if imbalance <? - threshold then
    (* Hardware overloaded - throttle software *)
    let throttle_amount := std_min (dabs imbalance) (dlit 0.5) in
    let new_throttle :=
      std_max (current_throttle - throttle_amount) (dlit 0.2) in
    {| MitigationResult.action := MitigationAction.THROTTLE;
       MitigationResult.component_id := component_id;
       MitigationResult.reason := "Hardware overloaded - throttling software";
       MitigationResult.timestamp := now;
       MitigationResult.idi_score := dlit 0.0;
       MitigationResult.throttle_level := new_throttle;
       MitigationResult.imbalance := imbalance |}
  else
    (* Hardware underutilized - can boost *)
    let boost_potential := std_min imbalance (dlit 0.3) in
    {| MitigationResult.action := MitigationAction.ALERT;
       MitigationResult.component_id := component_id;
       MitigationResult.reason :=
         "Hardware underutilized - boost potential available";
       MitigationResult.timestamp := now;
       MitigationResult.idi_score := dlit 0.0;
       MitigationResult.throttle_level :=
         std_min (current_throttle + boost_potential) (dlit 1.0);
       MitigationResult.imbalance := imbalance |}.

(** [while (history_.size() > moving_avg_window_ * 2) history_.pop_front();]
    Every iteration removes the front entry, so the loop is a recursion on
    the list. *)
Fixpoint bound_history (history : list (BalanceMetrics.t double))
    : list (BalanceMetrics.t double) :=
  match history with
  | [] => []
  | _ :: rest =>
      if (moving_avg_window_ * 2 <? length history)%nat
      then bound_history rest
      else history
  end.

(** The loop of [balance] that adds up the imbalances from the iterator
    [history_.end() - moving_avg_window_] to the end, starting from [0.0]. *)
Definition sum_recent (history : list (BalanceMetrics.t double)) : double :=
  fold_left (fun sum m => sum + BalanceMetrics.imbalance m)
            (skipn (length history - moving_avg_window_) history)
            (dlit 0.0).

(** Main balancing function, called on each telemetry update.
    [now_record] and [now_result] are the two readings of the clock: the
    one stored with the history entry and the one that stamps the result. *)
Definition balance (self : t) (telemetry : TelemetryData.t double)
    (current_throttle : double) (now_record now_result : time_point)
    : MitigationResult.t double * t :=
  let hw_capacity := calculateHardwareCapacity telemetry in
  let sw_demand := calculateSoftwareDemand self telemetry in
  let imbalance := calculateImbalance hw_capacity sw_demand in
  (* Record to history, and keep the history bounded *)
  let history :=
    bound_history
      (history_ self ++ [ {| BalanceMetrics.hw_capacity := hw_capacity;
                             BalanceMetrics.sw_demand := sw_demand;
                             BalanceMetrics.imbalance := imbalance;
                             BalanceMetrics.timestamp := now_record |} ]) in
  (* Calculate smoothed imbalance (moving average) *)
  let avg_imbalance :=
    if (moving_avg_window_ <=? length history)%nat
    then sum_recent history / of_int (Z.of_nat moving_avg_window_)
    else imbalance in
  (getBalancingAction avg_imbalance (TelemetryData.component_id telemetry)
                      current_throttle now_result,
   {| history_ := history; target_throughput_ := target_throughput_ self |}).

(** Recent balance metrics: the last [count] entries of the history. *)
Definition getRecentMetrics (self : t) (count : nat)
    : list (BalanceMetrics.t double) :=
  if (count <? length (history_ self))%nat
  then skipn (length (history_ self) - count) (history_ self)
  else history_ self.

End HardwareSoftwareBalancer.
Arguments t : clear implicits.
End HardwareSoftwareBalancer.

(* ================================================================== *)
(** * IDI brake *)
(* ================================================================== *)

(** Automatic slowdown when the integration debt rises. *)
Module IDIBrake.
Section IDIBrake.
Context {double : Type} `{DoubleOps double}.
Local Open Scope double_scope.

(** Throttle level for an IDI value: 0.0 is stopped, 1.0 is full speed. *)
Definition calculateThrottleLevel (idi : double) : double :=
  if idi <? Thresholds.IDI_HEALTHY then
    dlit 1.0 (* Full speed *)
  else if idi <? Thresholds.IDI_WARNING then
    (* Linear slowdown from 1.0 to 0.7 *)
    let ratio := (idi - Thresholds.IDI_HEALTHY) /
                 (Thresholds.IDI_WARNING - Thresholds.IDI_HEALTHY) in
    dlit 1.0 - (ratio * dlit 0.3)
  else if idi <? Thresholds.IDI_CRITICAL then
    (* Aggressive slowdown from 0.7 to 0.3 *)
    let ratio := (idi - Thresholds.IDI_WARNING) /
                 (Thresholds.IDI_CRITICAL - Thresholds.IDI_WARNING) in
    dlit 0.7 - (ratio * dlit 0.4)
  else if idi <? Thresholds.IDI_QUARANTINE then
    (* Near stop from 0.3 to 0.1 *)
    let ratio := (idi - Thresholds.IDI_CRITICAL) /
                 (Thresholds.IDI_QUARANTINE - Thresholds.IDI_CRITICAL) in
    dlit 0.3 - (ratio * dlit 0.2)
  else
    dlit 0.0 (* Full stop - quarantine *).

(** Apply the brake and get the mitigation result. *)
Definition applyBrake (component_id : string) (idi : double)
    (days_since_integration loc_changed dependencies : Z) (now : time_point)
    : MitigationResult.t double :=
  let severity := IDICalculator.getSeverity idi in
  let throttle := calculateThrottleLevel idi in
  let verdict :=
    match severity with
    | SeverityLevel.QUARANTINE =>
        (MitigationAction.QUARANTINE,
         "IDI exceeded quarantine threshold - component isolated"%string)
    | SeverityLevel.CRITICAL =>
        (MitigationAction.BRAKE,
         "IDI in critical zone - hard brake applied"%string)
    | SeverityLevel.WARNING =>
        (MitigationAction.THROTTLE,
         "IDI in warning zone - soft throttle applied"%string)
    | SeverityLevel.HEALTHY =>
        (MitigationAction.NONE, "IDI healthy - no mitigation needed"%string)
    end in
  {| MitigationResult.action := fst verdict;
     MitigationResult.component_id := component_id;
     MitigationResult.reason := snd verdict;
     MitigationResult.timestamp := now;
     MitigationResult.idi_score := idi;
     MitigationResult.throttle_level := throttle;
     MitigationResult.imbalance := dlit 0.0 |}.

End IDIBrake.
End IDIBrake.

(* ================================================================== *)
(** * Neural pruning *)
(* ================================================================== *)

(** The automatic quarantine mechanism. *)
Module NeuralPruning.
Section NeuralPruning.
Context {double : Type} `{DoubleOps double}.
Local Open Scope double_scope.

Record QuarantineEntry : Type := {
  component_id : string;
  reason : string;
  quarantined_at : time_point;
  idi_at_quarantine : double;
  health_at_quarantine : double
}.

(** Check if a component should be pruned. *)
Definition shouldPrune (idi error_rate health_score : double)
    (temperature : option double) : bool :=
  (* IDI check *)
  if idi >=? Thresholds.IDI_QUARANTINE then true
  (* Error rate check: 5% *)
  else if error_rate >=? dlit 0.05 then true
  (* Temperature check (for hardware) *)
  else if match temperature with
          | Some temp => temp >=? Thresholds.TEMPERATURE_SHUTDOWN
          | None => false
          end then true
  (* Health score check *)
  else if health_score <? dlit 20.0 then true
  else false.

(** Check if a component can be restored from quarantine.  [now] is the
    reading of [system_clock], whose period is [1 / ticks_per_second].  The
    two guards on the debt and the health return before the clock is read;
    past them the result is undefined ([None]) where [now - quarantined_at]
    overflows. *)
Definition canRestore (ticks_per_second : positive) (idi health_score : double)
    (quarantined_at now : time_point) : option bool :=
  (* IDI must be below warning *)
  if idi >=? Thresholds.IDI_WARNING then Some false
  (* Health must be above 70 *)
  else if health_score <? dlit 70.0 then Some false
  (* Minimum quarantine time (1 hour) *)
  else
    elapsed <- time_sub now quarantined_at ;;
    let duration := duration_cast_hours ticks_per_second elapsed in
    if (duration <? 1)%Z then Some false
    else Some true.

End NeuralPruning.
Arguments QuarantineEntry : clear implicits.
End NeuralPruning.

(* ================================================================== *)
(** * Combined throttle calculator *)
(* ================================================================== *)

(** Combines the results of the IDI brake and of the balancer into the
    final throttle value. *)
Module CombinedThrottleCalculator.
Section CombinedThrottleCalculator.
Context {double : Type} `{DoubleOps double}.
Local Open Scope double_scope.

Definition calculate (idi_throttle balance_throttle : double)
    (is_quarantined : bool) : double :=
  if is_quarantined then dlit 0.0
  else
    (* Take the more restrictive throttle *)
    let min_throttle := std_min idi_throttle balance_throttle in
    min_throttle.

End CombinedThrottleCalculator.
End CombinedThrottleCalculator.

(* ================================================================== *)
(** * Vocabulary of the properties *)
(* ================================================================== *)

Unset Implicit Arguments.

Section Vocabulary.
Local Open Scope Q_scope.

(** Continuity of a function on the rationals at a point, and its limit
    from the left. *)
Definition continuous_at (f : Q -> Q) (b : Q) : Prop :=
  forall eps : Q, 0 < eps ->
  exists delta : Q, 0 < delta /\
    forall x : Q, Qabs (x - b) < delta -> Qabs (f x - f b) < eps.

Definition left_limit (f : Q -> Q) (b l : Q) : Prop :=
  forall eps : Q, 0 < eps ->
  exists delta : Q, 0 < delta /\
    forall x : Q, b - delta < x -> x < b -> Qabs (f x - l) < eps.

(** The linear formulas of the three sloped segments of the brake curve, as
    the branches of [IDIBrake::calculateThrottleLevel] compute them. *)
Definition warning_segment (idi : Q) : Q :=
  1.0 - ((idi - Thresholds.IDI_HEALTHY)
         / (Thresholds.IDI_WARNING - Thresholds.IDI_HEALTHY)) * 0.3.
Definition critical_segment (idi : Q) : Q :=
  0.7 - ((idi - Thresholds.IDI_WARNING)
         / (Thresholds.IDI_CRITICAL - Thresholds.IDI_WARNING)) * 0.4.
Definition near_stop_segment (idi : Q) : Q :=
  0.3 - ((idi - Thresholds.IDI_CRITICAL)
         / (Thresholds.IDI_QUARANTINE - Thresholds.IDI_CRITICAL)) * 0.2.

(** Rounding to the nearest integer, halves away from zero (C's [round]). *)
Definition round_nearest (q : Q) : Z :=
  if Qle_bool 0 q then Qfloor (q + (1 # 2)) else Qceiling (q - (1 # 2)).

(** The most recent [n] entries of a history. *)
Definition most_recent {A : Type} (n : nat) (l : list A) : list A :=
  rev (firstn n (rev l)).

(** One hour and one minute, in ticks of the clock. *)
Definition one_hour (ticks_per_second : positive) : Z :=
  3600 * Zpos ticks_per_second.
Definition one_minute (ticks_per_second : positive) : Z :=
  60 * Zpos ticks_per_second.

(** The snapshot of the end-to-end scenario: cpu 90, memory 60, throughput
    1200, latency 50, error rate 0.001, no temperature.  The fields the
    balancer does not read are left open. *)
Definition scenario_snapshot (id : string) (at_time : time_point)
    (network_latency : Q) (power : option Q) : TelemetryData.t Q :=
  {| TelemetryData.component_id := id;
     TelemetryData.timestamp := at_time;
     TelemetryData.cpu_usage := 90;
     TelemetryData.memory_usage := 60;
     TelemetryData.io_latency_ms := 50;
     TelemetryData.network_latency_ms := network_latency;
     TelemetryData.error_rate := 0.001;
     TelemetryData.throughput := 1200;
     TelemetryData.temperature := None;
     TelemetryData.power_consumption := None |}.

(** The states of a PID controller that the interface of the class can
    produce: the constructor, then any sequence of its member functions. *)
Inductive pid_reachable : PIDController.t Q -> Prop :=
| reach_make (kp ki kd target : Q) :
    pid_reachable (PIDController.make kp ki kd target)
| reach_setTarget (self : PIDController.t Q) (target : Q) :
    pid_reachable self -> pid_reachable (PIDController.setTarget self target)
| reach_reset (self : PIDController.t Q) :
    pid_reachable self -> pid_reachable (PIDController.reset self)
| reach_calculate (self : PIDController.t Q) (current_value : Q) :
    pid_reachable self ->
    pid_reachable (snd (PIDController.calculate self current_value)).

(** The balancer fed a sequence of snapshots at a constant throttle: the
    verdicts, oldest first, and the final state. *)
Fixpoint balance_all (self : HardwareSoftwareBalancer.t Q)
    (snapshots : list (TelemetryData.t Q)) (current_throttle : Q)
    : list (MitigationResult.t Q) * HardwareSoftwareBalancer.t Q :=
  match snapshots with
  | [] => ([], self)
  | snapshot :: rest =>
      let (verdict, next) :=
        HardwareSoftwareBalancer.balance self snapshot current_throttle 0 0 in
      let (verdicts, final) := balance_all next rest current_throttle in
      (verdict :: verdicts, final)
  end.

(** A snapshot of idle hardware (imbalance +0.5) and one of overloaded
    hardware (imbalance -0.5), for a target throughput of 1000. *)
Definition idle_snapshot : TelemetryData.t Q :=
  {| TelemetryData.component_id := "component";
     TelemetryData.timestamp := 0;
     TelemetryData.cpu_usage := 0;
     TelemetryData.memory_usage := 0;
     TelemetryData.io_latency_ms := 0;
     TelemetryData.network_latency_ms := 0;
     TelemetryData.error_rate := 0;
     TelemetryData.throughput := 1000;
     TelemetryData.temperature := None;
     TelemetryData.power_consumption := None |}.

Definition overloaded_snapshot : TelemetryData.t Q :=
  {| TelemetryData.component_id := "component";
     TelemetryData.timestamp := 0;
     TelemetryData.cpu_usage := 100;
     TelemetryData.memory_usage := 100;
     TelemetryData.io_latency_ms := 0;
     TelemetryData.network_latency_ms := 0;
     TelemetryData.error_rate := 0.1;
     TelemetryData.throughput := 1000;
     TelemetryData.temperature := None;
     TelemetryData.power_consumption := None |}.

Fixpoint alternating (pairs : nat) : list (TelemetryData.t Q) :=
  match pairs with
  | O => []
  | S n => idle_snapshot :: overloaded_snapshot :: alternating n
  end.

End Vocabulary.

(** The binary64 counterparts of a literal and of the scenario snapshot. *)
Definition lit64 (q : Q) : float := dlit q.

Definition scenario_snapshot64 : TelemetryData.t float :=
  {| TelemetryData.component_id := "component";
     TelemetryData.timestamp := 0;
     TelemetryData.cpu_usage := lit64 90;
     TelemetryData.memory_usage := lit64 60;
     TelemetryData.io_latency_ms := lit64 50;
     TelemetryData.network_latency_ms := lit64 0;
     TelemetryData.error_rate := lit64 0.001;
     TelemetryData.throughput := lit64 1200;
     TelemetryData.temperature := None;
     TelemetryData.power_consumption := None |}.

(** The rational number that a finite binary64 number [(-1)^s * m * 2^e]
    stands for; an infinity and a NaN stand for none. *)
Definition float_value (x : float) : option Q :=
  match Prim2SF x with
  | S754_zero _ => Some 0%Q
  | S754_finite s m e =>
      let a := match e with
               | Z0 => inject_Z (Zpos m)
               | Zpos k => inject_Z (Zpos m * 2 ^ Zpos k)
               | Zneg k => (Zpos m # 2 ^ k)%Q
               end in
      Some (if s then (- a)%Q else a)
  | S754_infinity _ => None
  | S754_nan => None
  end.

(** The arithmetic mean of a list of doubles as binary64 computes it: the
    numbers are added up from 0.0 in the order of the list, every sum
    rounded, and the total is divided by the length. *)
Definition mean64 (l : list float) : float :=
  PrimFloat.div (fold_left PrimFloat.add l (lit64 0.0))
                (float_of_Z (Z.of_nat (length l))).

(** A snapshot whose capacity is 100 and whose demand is 70 for a target
    throughput of 1000: an imbalance of 0.3. *)
Definition steady_snapshot64 : TelemetryData.t float :=
  {| TelemetryData.component_id := "component";
     TelemetryData.timestamp := 0;
     TelemetryData.cpu_usage := lit64 0;
     TelemetryData.memory_usage := lit64 0;
     TelemetryData.io_latency_ms := lit64 0;
     TelemetryData.network_latency_ms := lit64 0;
     TelemetryData.error_rate := lit64 0.1;
     TelemetryData.throughput := lit64 1000;
     TelemetryData.temperature := None;
     TelemetryData.power_consumption := None |}.

(** The binary64 balancer fed a sequence of snapshots at a constant
    throttle, and the balancer that has been fed [steady_snapshot64] twenty
    times: its history is full. *)
Fixpoint balance_all64 (self : HardwareSoftwareBalancer.t float)
    (snapshots : list (TelemetryData.t float)) (current_throttle : float)
    : list (MitigationResult.t float) * HardwareSoftwareBalancer.t float :=
  match snapshots with
  | [] => ([], self)
  | snapshot :: rest =>
      let (verdict, next) :=
        HardwareSoftwareBalancer.balance self snapshot current_throttle 0 0 in
      let (verdicts, final) := balance_all64 next rest current_throttle in
      (verdict :: verdicts, final)
  end.

Definition full_balancer64 : HardwareSoftwareBalancer.t float :=
  snd (balance_all64 HardwareSoftwareBalancer.default
         (repeat steady_snapshot64 20) (lit64 0.5)).

(** The history entry that [balance] records for the scenario snapshot. *)
Definition scenario_sample64 (at_time : time_point) : BalanceMetrics.t float :=
  let hw :=
    HardwareSoftwareBalancer.calculateHardwareCapacity scenario_snapshot64 in
  let sw :=
    HardwareSoftwareBalancer.calculateSoftwareDemand
      full_balancer64 scenario_snapshot64 in
  {| BalanceMetrics.hw_capacity := hw;
     BalanceMetrics.sw_demand := sw;
     BalanceMetrics.imbalance :=
       HardwareSoftwareBalancer.calculateImbalance hw sw;
     BalanceMetrics.timestamp := at_time |}.

(** A controller with gains of magnitude 2^1023, which is finite. *)
Definition overflowing_controller64 : PIDController.t float :=
  PIDController.make (0x1p+1023)%float (lit64 0.1)
    (PrimFloat.opp (0x1p+1023)%float) (lit64 70.0).

(** A controller with target 0.8 whose integral has been driven to the
    lower limit by one reading of 1000, and the default controller after 62
    readings of 69.2, whose integral is near 49.6. *)
Definition lowered_controller64 : PIDController.t float :=
  snd (PIDController.calculate
         (PIDController.make (lit64 0.5) (lit64 0.1) (lit64 0.05) (lit64 0.8))
         (lit64 1000)).


(* ================================================================== *)
(** * Exact arithmetic: comparisons and library functions *)
(* ================================================================== *)

Local Open Scope Q_scope.

Lemma Qltb_spec (a b : Q) : BoolSpec (a < b) (b <= a) (Qltb a b).
Proof.
  unfold Qltb. destruct (Z.ltb_spec (Qnum a * QDen b) (Qnum b * QDen a)).
  - constructor. exact H.
  - constructor. exact H.
Qed.

Lemma Qleb_spec (a b : Q) : BoolSpec (a <= b) (b < a) (Qle_bool a b).
Proof.
  destruct (Qle_bool a b) eqn:E; constructor.
  - now apply Qle_bool_iff.
  - apply Qnot_le_lt. intro L. apply Qle_bool_iff in L. congruence.
Qed.

Lemma Qeqb_spec (a b : Q) : BoolSpec (a == b) (~ a == b) (Qeq_bool a b).
Proof.
  destruct (Qeq_bool a b) eqn:E; constructor.
  - now apply Qeq_bool_iff.
  - intro L. apply Qeq_bool_iff in L. congruence.
Qed.

(** Unfolds the operations of [double] to those of [Q]. *)
Ltac exact_ops :=
  cbv [dlit dadd dsub dmul ddiv dopp dabs dltb dleb deqb of_int to_int
       Q_double] in *.

(** Unfolds the thresholds to their literals. *)
Ltac thresholds :=
  unfold Thresholds.IDI_HEALTHY, Thresholds.IDI_WARNING, Thresholds.IDI_CRITICAL,
    Thresholds.IDI_QUARANTINE, Thresholds.TEMPERATURE_WARNING,
    Thresholds.TEMPERATURE_CRITICAL, Thresholds.TEMPERATURE_SHUTDOWN,
    Thresholds.HW_SW_IMBALANCE_THRESHOLD, Thresholds.LATENCY_WARNING_MS,
    Thresholds.LATENCY_CRITICAL_MS in *.

(** Splits on every comparison the goal branches on. *)
Ltac split_cmp :=
  repeat match goal with
  | |- context [Qltb ?a ?b] => destruct (Qltb_spec a b)
  | |- context [Qle_bool ?a ?b] => destruct (Qleb_spec a b)
  | |- context [Qeq_bool ?a ?b] => destruct (Qeqb_spec a b)
  end.

(** Closes a comparison of two rational constants. *)
Ltac by_computation := unfold Qle, Qlt; simpl; lia.

(** Division by a constant [c] is multiplication by its inverse [k]. *)
Lemma Qdiv_by (x c k : Q) : k * c == 1 -> x / c == x * k.
Proof.
  intros Hk.
  assert (Hc : ~ c == 0) by (intro E; rewrite E in Hk; lra).
  assert (E : k == / c) by (rewrite <- (Qmult_1_l (/ c)), <- Hk; field; exact Hc).
  unfold Qdiv. now rewrite E.
Qed.

Lemma Qabs_cases (e : Q) :
  (0 <= e /\ Qabs e == e) \/ (e < 0 /\ Qabs e == - e).
Proof.
  destruct (Qlt_le_dec e 0) as [Hneg | Hpos].
  - right. split; [exact Hneg |]. apply Qabs_neg. lra.
  - left. split; [exact Hpos |]. now apply Qabs_pos.
Qed.

(** Case analysis on every absolute value of the goal and the context;
    [lra] then knows each [Qabs e] as [e] or [- e]. *)
Ltac split_abs :=
  repeat match goal with
  | |- context [Qabs ?e] =>
      lazymatch goal with
      | _ : Qabs e == _ |- _ => fail
      | _ => destruct (Qabs_cases e) as [[? ?] | [? ?]]
      end
  | _ : context [Qabs ?e] |- _ =>
      lazymatch goal with
      | _ : Qabs e == _ |- _ => fail
      | _ => destruct (Qabs_cases e) as [[? ?] | [? ?]]
      end
  end.

(** [std::min], [std::max] and [std::clamp] compute the mathematical
    minimum, maximum and clamping. *)
Lemma std_min_Qmin (a b : Q) : std_min a b == Qmin a b.
Proof.
  unfold std_min. exact_ops. split_cmp.
  - symmetry. apply Q.min_r. lra.
  - symmetry. apply Q.min_l. lra.
Qed.

Lemma std_max_Qmax (a b : Q) : std_max a b == Qmax a b.
Proof.
  unfold std_max. exact_ops. split_cmp.
  - symmetry. apply Q.max_r. lra.
  - symmetry. apply Q.max_l. lra.
Qed.

Lemma std_clamp_bounds (v lo hi : Q) :
  lo <= hi -> lo <= std_clamp v lo hi <= hi.
Proof.
  intros Hlh. unfold std_clamp. exact_ops. split_cmp; lra.
Qed.

Lemma duration_cast_hours_ge_1 (tps : positive) (d : Z) :
  (duration_cast_hours tps d <? 1)%Z = false <-> (one_hour tps <= d)%Z.
Proof.
  unfold duration_cast_hours, one_hour.
  set (h := (3600 * Z.pos tps)%Z). assert (Hh : (0 < h)%Z) by (subst h; lia).
  rewrite Z.ltb_ge. split; intro L.
  - destruct (Z.lt_ge_cases d h) as [Hlt | Hge]; [| exact Hge].
    destruct (Z.lt_ge_cases d 0) as [Hneg | Hpos].
    + assert (Z.quot d h <= 0)%Z by (apply Z.quot_le_upper_bound; lia). lia.
    + rewrite Z.quot_small in L by lia. lia.
  - apply Z.quot_le_lower_bound; lia.
Qed.

(* ================================================================== *)
(** * The combined throttle *)
(* ================================================================== *)

(** C1: for every pair of throttles, [CombinedThrottleCalculator::calculate]
    returns 0.0 when the component is quarantined and the minimum of the two
    throttles otherwise; in particular it maps (0.8, 0.3, false) to 0.3 and
    (0.8, 0.3, true) to 0.0. *)
Theorem combined_throttle_is_min_unless_quarantined
    (brake_throttle balance_throttle : Q) :
  CombinedThrottleCalculator.calculate brake_throttle balance_throttle true == 0
  /\ CombinedThrottleCalculator.calculate brake_throttle balance_throttle false
     == Qmin brake_throttle balance_throttle
  /\ CombinedThrottleCalculator.calculate 0.8 0.3 false == 0.3
  /\ CombinedThrottleCalculator.calculate 0.8 0.3 true == 0.0.
Proof.
  assert (Hq : forall a b : Q, CombinedThrottleCalculator.calculate a b true == 0).
  { intros a b. unfold CombinedThrottleCalculator.calculate. exact_ops.
    reflexivity. }
  assert (Hm : forall a b : Q,
             CombinedThrottleCalculator.calculate a b false == Qmin a b).
  { intros a b. unfold CombinedThrottleCalculator.calculate.
    apply std_min_Qmin. }
  split; [| split; [| split]].
  - apply Hq.
  - apply Hm.
  - rewrite Hm. apply Q.min_r. lra.
  - rewrite Hq. reflexivity.
Qed.

(* ================================================================== *)
(** * The severity tiers *)
(* ================================================================== *)

(** C5: [IDICalculator::getSeverity] returns HEALTHY iff debt < 3.0, WARNING
    iff 3.0 <= debt < 5.0, CRITICAL iff 5.0 <= debt < 10.0 and QUARANTINE iff
    debt >= 10.0; the six boundary values of the specification are
    classified accordingly; and [IDI_CRITICAL] = 7.0 is no boundary: debts
    on either side of it, within [5, 10), get the same tier. *)
Theorem severity_tiers (debt : Q) :
  (IDICalculator.getSeverity debt = SeverityLevel.HEALTHY <-> debt < 3.0)
  /\ (IDICalculator.getSeverity debt = SeverityLevel.WARNING
      <-> 3.0 <= debt /\ debt < 5.0)
  /\ (IDICalculator.getSeverity debt = SeverityLevel.CRITICAL
      <-> 5.0 <= debt /\ debt < 10.0)
  /\ (IDICalculator.getSeverity debt = SeverityLevel.QUARANTINE <-> 10.0 <= debt)
  /\ IDICalculator.getSeverity 2.999 = SeverityLevel.HEALTHY
  /\ IDICalculator.getSeverity 3.0 = SeverityLevel.WARNING
  /\ IDICalculator.getSeverity 4.999 = SeverityLevel.WARNING
  /\ IDICalculator.getSeverity 5.0 = SeverityLevel.CRITICAL
  /\ IDICalculator.getSeverity 9.999 = SeverityLevel.CRITICAL
  /\ IDICalculator.getSeverity 10.0 = SeverityLevel.QUARANTINE
  /\ (forall below above : Q,
        5.0 <= below -> below < Thresholds.IDI_CRITICAL ->
        Thresholds.IDI_CRITICAL <= above -> above < 10.0 ->
        IDICalculator.getSeverity below = IDICalculator.getSeverity above).
Proof.
  assert (tiers : forall d : Q,
    (IDICalculator.getSeverity d = SeverityLevel.HEALTHY <-> d < 3.0)
    /\ (IDICalculator.getSeverity d = SeverityLevel.WARNING
        <-> 3.0 <= d /\ d < 5.0)
    /\ (IDICalculator.getSeverity d = SeverityLevel.CRITICAL
        <-> 5.0 <= d /\ d < 10.0)
    /\ (IDICalculator.getSeverity d = SeverityLevel.QUARANTINE <-> 10.0 <= d)).
  { intro d. unfold IDICalculator.getSeverity. thresholds. exact_ops.
    split_cmp; repeat split; intros; try discriminate; try reflexivity; lra. }
  destruct (tiers debt) as (Hh & Hw & Hc & Hq).
  repeat (split; [assumption || (apply tiers; lra) |]).
  intros below above Hb1 Hb2 Ha1 Ha2. thresholds. exact_ops.
  transitivity SeverityLevel.CRITICAL; [| symmetry]; apply tiers; lra.
Qed.

(** C5, at an instance: a debt of 6 and a debt of 8, on either side of
    [IDI_CRITICAL], are in the same tier. *)
Lemma severity_tiers_witness :
  IDICalculator.getSeverity 6 = IDICalculator.getSeverity 8.
Proof.
  apply (proj2 (proj2 (proj2 (proj2 (proj2 (proj2 (proj2 (proj2 (proj2 (proj2
           (severity_tiers 0)))))))))) 6 8); by_computation.
Defined.

(* ================================================================== *)
(** * The quarantine gate *)
(* ================================================================== *)

(** C9: for every debt, health, quarantine time and clock reading whose
    tick difference fits the 64-bit tick count of [system_clock],
    [NeuralPruning::canRestore] returns true if and only if debt < 5.0 and
    health >= 70.0 and at least one hour has elapsed since [quarantined_at],
    and false otherwise; it returns false 59 minutes after the quarantine
    even with debt 0 and health 100, and true exactly 60 minutes after it
    with debt 4.9 and health 70.  The call is undefined exactly when both
    guards pass and the subtraction of the time points overflows. *)
Theorem can_restore_iff (ticks_per_second : positive) (debt health : Q)
    (quarantined_at now : time_point) :
  (in_ticks (now - quarantined_at) = true ->
   (NeuralPruning.canRestore ticks_per_second debt health quarantined_at now
    = Some true
    <-> debt < 5.0 /\ 70.0 <= health
        /\ (one_hour ticks_per_second <= now - quarantined_at)%Z)
   /\ (NeuralPruning.canRestore ticks_per_second debt health quarantined_at now
       = Some false
       <-> ~ (debt < 5.0 /\ 70.0 <= health
              /\ (one_hour ticks_per_second <= now - quarantined_at)%Z)))
  /\ (NeuralPruning.canRestore ticks_per_second debt health quarantined_at now
      = None
      <-> debt < 5.0 /\ 70.0 <= health
          /\ in_ticks (now - quarantined_at) = false)
  /\ (in_ticks (59 * one_minute ticks_per_second) = true ->
      NeuralPruning.canRestore ticks_per_second 0 100 quarantined_at
        (quarantined_at + 59 * one_minute ticks_per_second)%Z = Some false)
  /\ (in_ticks (60 * one_minute ticks_per_second) = true ->
      NeuralPruning.canRestore ticks_per_second 4.9 70 quarantined_at
        (quarantined_at + 60 * one_minute ticks_per_second)%Z = Some true).
Proof.
  assert (gate : forall (d h : Q) (t : time_point),
    in_ticks (t - quarantined_at) = true ->
    NeuralPruning.canRestore ticks_per_second d h quarantined_at t
    = Some (Qltb d 5.0 && Qle_bool 70.0 h
            && (one_hour ticks_per_second <=? t - quarantined_at)%Z)).
  { intros d h t Hfit. unfold NeuralPruning.canRestore, time_sub.
    rewrite Hfit. cbn [bind]. thresholds. exact_ops.
    destruct (Z.leb_spec (one_hour ticks_per_second) (t - quarantined_at))
      as [L | L];
      destruct (Z.ltb_spec
                  (duration_cast_hours ticks_per_second (t - quarantined_at)) 1)
        as [D | D];
      try (apply duration_cast_hours_ge_1 in L; lia);
      try (assert (one_hour ticks_per_second <= t - quarantined_at)%Z
             by (apply duration_cast_hours_ge_1; lia); lia);
      split_cmp; try reflexivity; lra. }
  assert (bools : forall d h : Q,
    Qltb d 5.0 && Qle_bool 70.0 h = true <-> d < 5.0 /\ 70.0 <= h).
  { intros d h. split_cmp; cbn [andb]; split;
      try discriminate; try (intros _; split; assumption);
      intros [? ?]; try reflexivity; lra. }
  split; [| split; [| split]].
  - intro Hfit. rewrite (gate debt health now Hfit). split.
    + split.
      * intro E. injection E as E. apply andb_prop in E. destruct E as [E L].
        apply bools in E. apply Z.leb_le in L. tauto.
      * intros (Hd & Hh & L). f_equal. apply andb_true_intro. split.
        -- apply bools. tauto.
        -- now apply Z.leb_le.
    + split.
      * intros E (Hd & Hh & L). injection E as E.
        assert (T : Qltb debt 5.0 && Qle_bool 70.0 health
                    && (one_hour ticks_per_second <=? now - quarantined_at)%Z
                    = true).
        { apply andb_true_intro. split; [apply bools; tauto | now apply Z.leb_le]. }
        congruence.
      * intro N. f_equal. apply not_true_is_false. intro E.
        apply N. apply andb_prop in E. destruct E as [E L].
        apply bools in E. apply Z.leb_le in L. tauto.
  - unfold NeuralPruning.canRestore, time_sub. thresholds. exact_ops.
    destruct (in_ticks (now - quarantined_at)); cbn [bind];
      [destruct (duration_cast_hours _ _ <? 1)%Z |];
      split_cmp; split; try discriminate; try reflexivity;
      try (intros (? & ? & ?)); try discriminate; try lra;
      intros _; repeat split; try reflexivity; lra.
  - intro Hfit.
    rewrite gate
      by (replace (quarantined_at + 59 * one_minute ticks_per_second
                   - quarantined_at)%Z
            with (59 * one_minute ticks_per_second)%Z by lia; exact Hfit).
    f_equal. apply andb_false_intro2. apply Z.leb_gt.
    unfold one_hour, one_minute. lia.
  - intro Hfit.
    rewrite gate
      by (replace (quarantined_at + 60 * one_minute ticks_per_second
                   - quarantined_at)%Z
            with (60 * one_minute ticks_per_second)%Z by lia; exact Hfit).
    f_equal. apply andb_true_intro. split.
    + apply bools. split; by_computation.
    + apply Z.leb_le. unfold one_hour, one_minute. lia.
Qed.

(** C9, at an instance: with a nanosecond clock, a component quarantined at
    tick 0 with debt 4.9 and health 70 can be restored one hour later. *)
Lemma can_restore_iff_witness :
  NeuralPruning.canRestore 1000000000 4.9 70 0 3600000000000 = Some true.
Proof.
  apply (proj1 (proj1 (can_restore_iff 1000000000 4.9 70 0 3600000000000)
                  eq_refl)).
  split; [by_computation | split; [by_computation | vm_compute; discriminate]].
Defined.

(* ================================================================== *)
(** * The brake curve *)
(* ================================================================== *)

(** The curve in closed form, segment by segment. *)
Lemma throttle_level_segments (idi : Q) :
  (idi < 3.0 -> IDIBrake.calculateThrottleLevel idi == 1.0)
  /\ (3.0 <= idi -> idi < 5.0 ->
      IDIBrake.calculateThrottleLevel idi == 1.0 - 0.15 * (idi - 3.0))
  /\ (5.0 <= idi -> idi < 7.0 ->
      IDIBrake.calculateThrottleLevel idi == 0.7 - 0.2 * (idi - 5.0))
  /\ (7.0 <= idi -> idi < 10.0 ->
      IDIBrake.calculateThrottleLevel idi == 0.3 - (1 # 15) * (idi - 7.0))
  /\ (10.0 <= idi -> IDIBrake.calculateThrottleLevel idi == 0.0).
Proof.
  unfold IDIBrake.calculateThrottleLevel. thresholds. exact_ops.
  split_cmp; repeat split; intros; try lra.
  - rewrite (Qdiv_by _ (5.0 - 3.0) 0.5) by reflexivity. lra.
  - rewrite (Qdiv_by _ (7.0 - 5.0) 0.5) by reflexivity. lra.
  - rewrite (Qdiv_by _ (10.0 - 7.0) (1 # 3)) by reflexivity. lra.
Qed.

(** On each sloped segment the curve is the linear formula of the segment. *)
Lemma throttle_level_on_segments (idi : Q) :
  (3.0 <= idi -> idi < 5.0 ->
   IDIBrake.calculateThrottleLevel idi = warning_segment idi)
  /\ (5.0 <= idi -> idi < 7.0 ->
      IDIBrake.calculateThrottleLevel idi = critical_segment idi)
  /\ (7.0 <= idi -> idi < 10.0 ->
      IDIBrake.calculateThrottleLevel idi = near_stop_segment idi).
Proof.
  unfold IDIBrake.calculateThrottleLevel, warning_segment, critical_segment,
    near_stop_segment.
  thresholds. exact_ops.
  split_cmp; repeat split; intros; try reflexivity; lra.
Qed.

(** Brings the closed form of the curve at [x] into the context, for the
    segment [x] lies on. *)
Ltac on_segment x :=
  let S1 := fresh "S" in let S2 := fresh "S" in let S3 := fresh "S" in
  let S4 := fresh "S" in let S5 := fresh "S" in
  destruct (throttle_level_segments x) as (S1 & S2 & S3 & S4 & S5);
  destruct (Qlt_le_dec x 3.0);
    [ specialize (S1 ltac:(assumption)); clear S2 S3 S4 S5
    | clear S1; destruct (Qlt_le_dec x 5.0);
      [ specialize (S2 ltac:(assumption) ltac:(assumption)); clear S3 S4 S5
      | clear S2; destruct (Qlt_le_dec x 7.0);
        [ specialize (S3 ltac:(assumption) ltac:(assumption)); clear S4 S5
        | clear S3; destruct (Qlt_le_dec x 10.0);
          [ specialize (S4 ltac:(assumption) ltac:(assumption)); clear S5
          | clear S4; specialize (S5 ltac:(assumption)) ] ] ] ].

(** A function that moves no faster than its argument near [b] is
    continuous at [b]. *)
Lemma lipschitz_continuous (f : Q -> Q) (b : Q) :
  (forall x : Q, Qabs (x - b) < 1 -> Qabs (f x - f b) <= Qabs (x - b)) ->
  continuous_at f b.
Proof.
  intros L eps Heps.
  destruct (Qlt_le_dec eps 1) as [Hsmall | Hlarge].
  - exists eps. split; [exact Heps |]. intros x Hx.
    specialize (L x ltac:(lra)). lra.
  - exists 1. split; [lra |]. intros x Hx.
    specialize (L x Hx). lra.
Qed.

Lemma throttle_level_lipschitz (b x : Q) :
  b == 3.0 \/ b == 5.0 \/ b == 7.0 ->
  Qabs (x - b) < 1 ->
  Qabs (IDIBrake.calculateThrottleLevel x - IDIBrake.calculateThrottleLevel b)
  <= Qabs (x - b).
Proof.
  intros Hb Hx.
  on_segment x; on_segment b; split_abs; lra.
Qed.

(** C2, as stated, fails at the quarantine threshold: the curve is 0.0 at
    10.0, the adjacent (near-stop) segment reaches 0.1 there, and the curve
    is not continuous at 10.0. *)
Theorem brake_curve_jumps_at_quarantine :
  IDIBrake.calculateThrottleLevel 10.0 == 0.0
  /\ near_stop_segment 10.0 == 0.1
  /\ ~ continuous_at IDIBrake.calculateThrottleLevel 10.0.
Proof.
  split; [reflexivity | split; [reflexivity |]].
  intro C. destruct (C 0.05 ltac:(lra)) as (delta & Hdelta & Hnear).
  assert (H10 : IDIBrake.calculateThrottleLevel 10.0 == 0.0) by reflexivity.
  destruct (Qlt_le_dec delta 2) as [Hsmall | Hlarge].
  - specialize (Hnear (10.0 - delta * 0.5)).
    on_segment (10.0 - delta * 0.5); split_abs; lra.
  - specialize (Hnear 9.0).
    on_segment 9.0; split_abs; lra.
Qed.

(** C2, amended: [IDIBrake::calculateThrottleLevel] follows the linear
    formulas of its three sloped segments and is continuous at its
    breakpoints 3.0, 5.0 and 7.0, where its value (1.0, 0.7 and 0.3) is the
    value of the formulas of the adjacent segments; at the quarantine
    threshold 10.0 the near-stop segment tends to 0.1 from the left, and
    every debt at or above 10.0 maps to 0.0. *)
Theorem brake_curve_continuity :
  (forall debt : Q,
     (3.0 <= debt -> debt < 5.0 ->
      IDIBrake.calculateThrottleLevel debt = warning_segment debt)
     /\ (5.0 <= debt -> debt < 7.0 ->
         IDIBrake.calculateThrottleLevel debt = critical_segment debt)
     /\ (7.0 <= debt -> debt < 10.0 ->
         IDIBrake.calculateThrottleLevel debt = near_stop_segment debt))
  /\ continuous_at IDIBrake.calculateThrottleLevel 3.0
  /\ continuous_at IDIBrake.calculateThrottleLevel 5.0
  /\ continuous_at IDIBrake.calculateThrottleLevel 7.0
  /\ IDIBrake.calculateThrottleLevel 3.0 == 1.0
  /\ warning_segment 3.0 == 1.0
  /\ IDIBrake.calculateThrottleLevel 5.0 == 0.7
  /\ warning_segment 5.0 == 0.7 /\ critical_segment 5.0 == 0.7
  /\ IDIBrake.calculateThrottleLevel 7.0 == 0.3
  /\ critical_segment 7.0 == 0.3 /\ near_stop_segment 7.0 == 0.3
  /\ left_limit IDIBrake.calculateThrottleLevel 10.0 0.1
  /\ (forall debt : Q, 10.0 <= debt -> IDIBrake.calculateThrottleLevel debt == 0.0).
Proof.
  split; [exact throttle_level_on_segments |].
  split; [| split; [| split]].
  - apply lipschitz_continuous. intros x. apply throttle_level_lipschitz.
    now left.
  - apply lipschitz_continuous. intros x. apply throttle_level_lipschitz.
    right. now left.
  - apply lipschitz_continuous. intros x. apply throttle_level_lipschitz.
    right. now right.
  - repeat (split; [reflexivity |]). split.
    + intros eps Heps. destruct (Qlt_le_dec eps 1) as [Hsmall | Hlarge].
      * exists eps. split; [exact Heps |]. intros x Hlo Hhi.
        on_segment x; split_abs; lra.
      * exists 1. split; [lra |]. intros x Hlo Hhi.
        on_segment x; split_abs; lra.
    + intros debt Hd. now apply throttle_level_segments.
Qed.

(** C2, at an instance: a debt of 12 maps to 0.0, and around the breakpoint
    5.0 the curve stays within 0.1 of its value there. *)
Lemma brake_curve_continuity_witness :
  IDIBrake.calculateThrottleLevel 12 == 0.0
  /\ exists delta : Q, 0 < delta /\
       forall x : Q, Qabs (x - 5.0) < delta ->
       Qabs (IDIBrake.calculateThrottleLevel x
             - IDIBrake.calculateThrottleLevel 5.0) < 0.1.
Proof.
  destruct brake_curve_continuity
    as (_ & _ & C5 & _ & _ & _ & _ & _ & _ & _ & _ & _ & _ & Q10).
  split.
  - apply (Q10 12). by_computation.
  - apply (C5 0.1). by_computation.
Defined.

(** C3, as stated, fails at debt 7.0: the curve is 0.3 there, while the
    single interpolation from 0.7 at 5.0 to 0.3 at 10.0 gives 0.54. *)
Theorem critical_band_claim_fails :
  IDIBrake.calculateThrottleLevel 7.0 == 0.3
  /\ 0.7 - 0.4 * (7.0 - 5.0) / 5.0 == 0.54
  /\ ~ IDIBrake.calculateThrottleLevel 7.0 == 0.7 - 0.4 * (7.0 - 5.0) / 5.0.
Proof.
  split; [| split].
  - reflexivity.
  - reflexivity.
  - intro E. vm_compute in E. discriminate E.
Qed.

(** C3, amended: for 5.0 <= debt < 7.0 the curve is the linear interpolation
    from 0.7 at 5.0 down to 0.3 at 7.0, that is 0.7 - 0.4 (debt - 5.0) / 2.0;
    for 7.0 <= debt < 10.0 it is the interpolation from 0.3 at 7.0 down to
    0.1 at 10.0, that is 0.3 - 0.2 (debt - 7.0) / 3.0; this near-stop band
    has width [IDI_QUARANTINE - IDI_CRITICAL] = 3.0. *)
Theorem critical_and_near_stop_segments (debt : Q) :
  (5.0 <= debt -> debt < 7.0 ->
   IDIBrake.calculateThrottleLevel debt == 0.7 - 0.4 * (debt - 5.0) / 2.0
   /\ 0.3 < IDIBrake.calculateThrottleLevel debt <= 0.7)
  /\ (7.0 <= debt -> debt < 10.0 ->
      IDIBrake.calculateThrottleLevel debt == 0.3 - 0.2 * (debt - 7.0) / 3.0
      /\ 0.1 < IDIBrake.calculateThrottleLevel debt <= 0.3)
  /\ Thresholds.IDI_QUARANTINE - Thresholds.IDI_CRITICAL == 3.0.
Proof.
  split; [| split].
  - intros H5 H7. on_segment debt; try lra.
    rewrite (Qdiv_by _ 2.0 0.5) by reflexivity. lra.
  - intros H7 H10. on_segment debt; try lra.
    rewrite (Qdiv_by _ 3.0 (1 # 3)) by reflexivity. lra.
  - reflexivity.
Qed.

(** C3, at instances: debts 6.0 and 8.5, one on each segment. *)
Lemma critical_and_near_stop_segments_witness :
  (IDIBrake.calculateThrottleLevel 6.0 == 0.7 - 0.4 * (6.0 - 5.0) / 2.0
   /\ 0.3 < IDIBrake.calculateThrottleLevel 6.0 <= 0.7)
  /\ (IDIBrake.calculateThrottleLevel 8.5 == 0.3 - 0.2 * (8.5 - 7.0) / 3.0
      /\ 0.1 < IDIBrake.calculateThrottleLevel 8.5 <= 0.3).
Proof.
  split.
  - apply (proj1 (critical_and_near_stop_segments 6.0)); by_computation.
  - apply (proj1 (proj2 (critical_and_near_stop_segments 8.5))); by_computation.
Defined.

(* ================================================================== *)
(** * The IDI prediction *)
(* ================================================================== *)

Lemma Qtrunc_floor_ceiling (q : Q) :
  Qtrunc q = if (0 <=? Qnum q)%Z then Qfloor q else Qceiling q.
Proof.
  destruct q as [n d]. unfold Qtrunc, Qceiling, Qfloor. cbn [Qnum Qden Qopp].
  destruct (Z.leb_spec 0 n) as [Hpos | Hneg].
  - apply Z.quot_div_nonneg; lia.
  - rewrite <- (Z.opp_involutive n) at 1. rewrite Z.quot_opp_l by lia.
    f_equal. apply Z.quot_div_nonneg; lia.
Qed.

(** [static_cast<int>] keeps the integer part: it rounds toward zero. *)
Lemma Qtrunc_toward_zero (q : Q) :
  (0 <= q -> inject_Z (Qtrunc q) <= q < inject_Z (Qtrunc q) + 1)
  /\ (q <= 0 -> inject_Z (Qtrunc q) - 1 < q <= inject_Z (Qtrunc q)).
Proof.
  rewrite Qtrunc_floor_ceiling. split; intro Hq.
  - destruct (Z.leb_spec 0 (Qnum q)) as [Hpos | Hneg].
    + split; [apply Qfloor_le |].
      pose proof (Qlt_floor q) as L. rewrite inject_Z_plus in L. exact L.
    + exfalso. unfold Qle in Hq. simpl in Hq. lia.
  - destruct (Z.leb_spec 0 (Qnum q)) as [Hpos | Hneg].
    + destruct q as [n d]. unfold Qle in Hq. cbn [Qnum Qden] in Hq, Hpos.
      assert (n = 0%Z) as -> by lia.
      unfold Qfloor, Qlt, Qle. cbn. lia.
    + split; [| apply Qle_ceiling].
      pose proof (Qceiling_lt q) as L. unfold Z.sub in L.
      rewrite inject_Z_plus in L. change (inject_Z (- (1))) with (- (1)) in L.
      lra.
Qed.

(** C4, as stated, fails for days = 0, loc = 1000, deps = 10, days_ahead = 1
    and a rate of 0.75 lines a day: [predictIDI] returns 1, the score of
    1000 lines, while rounding the projected 0.75 lines to the nearest
    integer gives the score 1.001 of 1001 lines. *)
Theorem predict_rounding_claim_fails :
  exists predicted : Q,
    IDICalculator.predictIDI 0 1000 10 1 0.75 = Some predicted
    /\ predicted == 1
    /\ round_nearest (0.75 * inject_Z 1) = 1%Z
    /\ IDICalculator.calculate (0 + 1) (1000 + round_nearest (0.75 * inject_Z 1)) 10
       == 1.001
    /\ ~ predicted
         == IDICalculator.calculate (0 + 1)
              (1000 + round_nearest (0.75 * inject_Z 1)) 10.
Proof.
  eexists. split; [vm_compute; reflexivity |].
  split; [reflexivity |]. split; [reflexivity |]. split; [reflexivity |].
  intro E. vm_compute in E. discriminate E.
Qed.

(* ================================================================== *)
(** * The balancer *)
(* ================================================================== *)

(** ** The bounded history *)

Lemma bound_history_skipn {double : Type} (history : list (BalanceMetrics.t double)) :
  HardwareSoftwareBalancer.bound_history history
  = skipn (length history - 20) history.
Proof.
  induction history as [| m rest IH].
  - reflexivity.
  - cbn [HardwareSoftwareBalancer.bound_history].
    unfold HardwareSoftwareBalancer.moving_avg_window_.
    destruct (Nat.ltb_spec (10 * 2) (length (m :: rest))) as [Hlong | Hshort].
    + rewrite IH. cbn [length] in *.
      replace (S (length rest) - 20)%nat with (S (length rest - 20)) by lia.
      reflexivity.
    + cbn [length] in *.
      replace (S (length rest) - 20)%nat with 0%nat by lia. reflexivity.
Qed.

Lemma bound_history_length {double : Type} (history : list (BalanceMetrics.t double)) :
  length (HardwareSoftwareBalancer.bound_history history)
  = Nat.min (length history) 20.
Proof.
  rewrite bound_history_skipn, length_skipn. lia.
Qed.

(** ** The most recent entries *)

Lemma most_recent_skipn {A : Type} (n : nat) (l : list A) :
  most_recent n l = skipn (length l - n) l.
Proof.
  unfold most_recent. rewrite firstn_rev, rev_involutive. reflexivity.
Qed.

Lemma most_recent_length {A : Type} (n : nat) (l : list A) :
  (n <= length l)%nat -> length (most_recent n l) = n.
Proof.
  intro Hn. rewrite most_recent_skipn, length_skipn. lia.
Qed.

(** While fewer than [moving_avg_window_] entries are held, the decision
    is made on the imbalance of the snapshot itself. *)
Lemma balance_short_history (self : HardwareSoftwareBalancer.t Q)
    (telemetry : TelemetryData.t Q) (current_throttle : Q)
    (now_record now_result : time_point) :
  (length (HardwareSoftwareBalancer.history_ self) < 9)%nat ->
  fst (HardwareSoftwareBalancer.balance self telemetry current_throttle
         now_record now_result)
  = HardwareSoftwareBalancer.getBalancingAction
      (HardwareSoftwareBalancer.calculateImbalance
         (HardwareSoftwareBalancer.calculateHardwareCapacity telemetry)
         (HardwareSoftwareBalancer.calculateSoftwareDemand self telemetry))
      (TelemetryData.component_id telemetry) current_throttle now_result.
Proof.
  intro Hlen. unfold HardwareSoftwareBalancer.balance. cbn [fst].
  rewrite bound_history_length, length_app. cbn [length].
  unfold HardwareSoftwareBalancer.moving_avg_window_.
  destruct (Nat.leb_spec 10
              (Nat.min (length (HardwareSoftwareBalancer.history_ self) + 1) 20));
    [lia | reflexivity].
Qed.

(** ** The end-to-end scenario *)

(** C6, as stated, fails: on the snapshot of the scenario the software
    demand is 57.7, not 62.52 (the error stress is
    min(0.001 x 1000, 100) = 1, weighted 0.2), and the imbalance is not
    -0.2252. *)
Theorem scenario_claimed_demand_fails :
  let snapshot := scenario_snapshot "component" 0 0 None in
  let hw := HardwareSoftwareBalancer.calculateHardwareCapacity snapshot in
  let sw :=
    HardwareSoftwareBalancer.calculateSoftwareDemand
      HardwareSoftwareBalancer.default snapshot in
  sw == 57.7
  /\ ~ sw == 62.52
  /\ ~ HardwareSoftwareBalancer.calculateImbalance hw sw == - 0.2252.
Proof.
  cbv zeta. split; [reflexivity | split].
  - intro E. vm_compute in E. discriminate E.
  - intro E. vm_compute in E. discriminate E.
Qed.

(** C6, amended: on the snapshot of the scenario, with a target throughput
    of 1000, the hardware capacity is 40, the software demand is
    0.5 x 100 + 0.3 x 25 + 0.2 x 1 = 57.7 and the imbalance is
    (40 - 57.7) / 100 = -0.177, inside the band of 0.3; while the history
    holds fewer than 10 entries the action is NONE and the throttle is left
    unchanged. *)
Theorem scenario_is_balanced (id : string) (at_time : time_point)
    (network_latency : Q) (power : option Q)
    (history : list (BalanceMetrics.t Q)) (current_throttle : Q)
    (now_record now_result : time_point) :
  let snapshot := scenario_snapshot id at_time network_latency power in
  let self := {| HardwareSoftwareBalancer.history_ := history;
                 HardwareSoftwareBalancer.target_throughput_ := 1000.0 |} in
  let hw := HardwareSoftwareBalancer.calculateHardwareCapacity snapshot in
  let sw := HardwareSoftwareBalancer.calculateSoftwareDemand self snapshot in
  let verdict :=
    fst (HardwareSoftwareBalancer.balance self snapshot current_throttle
           now_record now_result) in
  hw == 40
  /\ sw == 57.7
  /\ HardwareSoftwareBalancer.calculateImbalance hw sw == - 0.177
  /\ Qabs (HardwareSoftwareBalancer.calculateImbalance hw sw) < 0.3
  /\ ((length history < 9)%nat ->
      MitigationResult.action verdict = MitigationAction.NONE
      /\ MitigationResult.throttle_level verdict = current_throttle
      /\ MitigationResult.imbalance verdict == - 0.177).
Proof.
  intros snapshot self hw sw verdict.
  assert (Hhw : hw == 40) by reflexivity.
  assert (Hsw : sw == 57.7) by reflexivity.
  assert (Him : HardwareSoftwareBalancer.calculateImbalance hw sw == - 0.177)
    by reflexivity.
  split; [exact Hhw | split; [exact Hsw | split; [exact Him | split]]].
  - rewrite Him. reflexivity.
  - intro Hlen. unfold verdict.
    rewrite balance_short_history by exact Hlen.
    fold hw. fold sw. repeat split; reflexivity.
Qed.

(** C6, at an instance: the first call on a fresh balancer. *)
Lemma scenario_is_balanced_witness :
  MitigationResult.action (fst (HardwareSoftwareBalancer.balance
                 HardwareSoftwareBalancer.default
                 (scenario_snapshot "component" 0 0 None) 1 0 0))
  = MitigationAction.NONE.
Proof.
  apply (proj2 (proj2 (proj2 (proj2
           (scenario_is_balanced "component" 0 0 None [] 1 0 0))))).
  cbn [length]. lia.
Defined.

(** ** The decision at the threshold *)

(** C10: at an imbalance of exactly +0.3 and of exactly -0.3 the decision
    takes the ALERT branch: the throttle is
    min(current_throttle + 0.3, 1.0) at +0.3 and
    min(current_throttle - 0.3, 1.0) at -0.3, a decrease that is not
    floored at 0.2 as in the THROTTLE branch. *)
Theorem balancing_action_at_threshold (component_id : string)
    (current_throttle : Q) (now : time_point) :
  let at_plus :=
    HardwareSoftwareBalancer.getBalancingAction 0.3 component_id
      current_throttle now in
  let at_minus :=
    HardwareSoftwareBalancer.getBalancingAction (- 0.3) component_id
      current_throttle now in
  MitigationResult.action at_plus = MitigationAction.ALERT
  /\ MitigationResult.throttle_level at_plus == Qmin (current_throttle + 0.3) 1.0
  /\ MitigationResult.action at_minus = MitigationAction.ALERT
  /\ MitigationResult.throttle_level at_minus == Qmin (current_throttle - 0.3) 1.0
  /\ (current_throttle < 0.5 -> MitigationResult.throttle_level at_minus < 0.2).
Proof.
  intros at_plus at_minus.
  assert (Hplus : at_plus =
    {| MitigationResult.action := MitigationAction.ALERT;
       MitigationResult.component_id := component_id;
       MitigationResult.reason :=
         "Hardware underutilized - boost potential available";
       MitigationResult.timestamp := now;
       MitigationResult.idi_score := 0.0;
       MitigationResult.throttle_level :=
         std_min (current_throttle + std_min 0.3 0.3) 1.0;
       MitigationResult.imbalance := 0.3 |}) by reflexivity.
  assert (Hminus : at_minus =
    {| MitigationResult.action := MitigationAction.ALERT;
       MitigationResult.component_id := component_id;
       MitigationResult.reason :=
         "Hardware underutilized - boost potential available";
       MitigationResult.timestamp := now;
       MitigationResult.idi_score := 0.0;
       MitigationResult.throttle_level :=
         std_min (current_throttle + std_min (- 0.3) 0.3) 1.0;
       MitigationResult.imbalance := - 0.3 |}) by reflexivity.
  rewrite Hplus, Hminus. cbn [MitigationResult.action MitigationResult.throttle_level].
  assert (E1 : std_min 0.3 0.3 == 0.3) by reflexivity.
  assert (E2 : std_min (- 0.3) 0.3 == - 0.3) by reflexivity.
  assert (T1 : std_min (current_throttle + std_min 0.3 0.3) 1.0
               == Qmin (current_throttle + 0.3) 1.0).
  { rewrite std_min_Qmin. exact_ops. now rewrite E1. }
  assert (T2 : std_min (current_throttle + std_min (- 0.3) 0.3) 1.0
               == Qmin (current_throttle - 0.3) 1.0).
  { rewrite std_min_Qmin. exact_ops. rewrite E2. reflexivity. }
  repeat split; try assumption.
  intros Hc. rewrite T2. apply Q.min_lt_iff. left. lra.
Qed.

(** C10, at an instance: from a throttle of 0.4, an imbalance of exactly
    -0.3 brings the throttle below the floor of 0.2. *)
Lemma balancing_action_at_threshold_witness :
  MitigationResult.throttle_level
    (HardwareSoftwareBalancer.getBalancingAction (- 0.3) "component" 0.4 0)
  < 0.2.
Proof.
  apply (proj2 (proj2 (proj2 (proj2
           (balancing_action_at_threshold "component" 0.4 0))))).
  by_computation.
Defined.

(* ================================================================== *)
(** * The PID controller *)
(* ================================================================== *)

(** The integral stays within the anti-windup limits once a step is made. *)
Lemma integral_clamped (self : PIDController.t Q) (current_value : Q) :
  - 50.0 <= PIDController.integral_ (snd (PIDController.calculate self current_value))
         <= 50.0.
Proof.
  unfold PIDController.calculate. cbn [snd PIDController.integral_].
  apply std_clamp_bounds.
  unfold PIDController.INTEGRAL_MIN, PIDController.INTEGRAL_MAX.
  exact_ops. lra.
Qed.

(** Every state the interface of the class can produce keeps the integral
    within the limits. *)
Lemma reachable_integral_bounds (self : PIDController.t Q) :
  pid_reachable self -> - 50.0 <= PIDController.integral_ self <= 50.0.
Proof.
  induction 1 as [kp ki kd target | self target _ IH | self _ _ | self v _ _].
  - cbn. lra.
  - exact IH.
  - cbn. lra.
  - apply integral_clamped.
Qed.

(* ================================================================== *)
(** * Further properties of the decision engine *)
(* ================================================================== *)

(** The tier of a debt, with the interval the debt lies in. *)
Lemma severity_cases (debt : Q) :
  (IDICalculator.getSeverity debt = SeverityLevel.HEALTHY /\ debt < 3.0)
  \/ (IDICalculator.getSeverity debt = SeverityLevel.WARNING
      /\ 3.0 <= debt < 5.0)
  \/ (IDICalculator.getSeverity debt = SeverityLevel.CRITICAL
      /\ 5.0 <= debt < 10.0)
  \/ (IDICalculator.getSeverity debt = SeverityLevel.QUARANTINE /\ 10.0 <= debt).
Proof.
  unfold IDICalculator.getSeverity. thresholds. exact_ops.
  split_cmp; intuition.
Qed.

Lemma int_max_ge (a b : Z) : (a <= int_max a b /\ b <= int_max a b)%Z.
Proof. unfold int_max. destruct (Z.ltb_spec a b); lia. Qed.

Lemma int_max_mono (a a' b : Z) : (a <= a' -> int_max a b <= int_max a' b)%Z.
Proof. unfold int_max. destruct (Z.ltb_spec a b), (Z.ltb_spec a' b); lia. Qed.

(** X1: the debt score is never negative and is monotonically
    non-decreasing in the days since the last integration and in the lines
    of code changed. *)
Theorem score_monotone (days days' loc loc' deps : Z) :
  0 <= IDICalculator.calculate days loc deps
  /\ ((days <= days')%Z ->
      IDICalculator.calculate days loc deps
      <= IDICalculator.calculate days' loc deps)
  /\ ((loc <= loc')%Z ->
      IDICalculator.calculate days loc deps
      <= IDICalculator.calculate days loc' deps).
Proof.
  unfold IDICalculator.calculate. exact_ops.
  assert (Hd : forall d : Z, 0 <= inject_Z (int_max d 0)).
  { intro d. change 0 with (inject_Z 0). rewrite <- Zle_Qle. apply int_max_ge. }
  assert (Hl : forall l : Z, 0 <= inject_Z (int_max l 0) / 1000.0).
  { intro l. rewrite (Qdiv_by _ 1000.0 0.001) by reflexivity.
    specialize (Hd l). lra. }
  assert (Hp : 0 <= inject_Z (int_max deps 1) / 10.0).
  { rewrite (Qdiv_by _ 10.0 0.1) by reflexivity.
    assert (inject_Z 1 <= inject_Z (int_max deps 1))
      by (rewrite <- Zle_Qle; apply int_max_ge).
    change (inject_Z 1) with 1 in *. lra. }
  split; [| split].
  - apply Qmult_le_0_compat; [apply Qmult_le_0_compat |]; auto.
  - intro Hle. apply Qmult_le_compat_r; [| exact Hp].
    apply Qmult_le_compat_r; [| apply Hl].
    rewrite <- Zle_Qle. now apply int_max_mono.
  - intro Hle. apply Qmult_le_compat_r; [| exact Hp].
    rewrite !(Qmult_comm (inject_Z (int_max days 0))).
    apply Qmult_le_compat_r; [| apply Hd].
    rewrite !(Qdiv_by _ 1000.0 0.001) by reflexivity.
    assert (inject_Z (int_max loc 0) <= inject_Z (int_max loc' 0))
      by (rewrite <- Zle_Qle; now apply int_max_mono).
    lra.
Qed.

Lemma score_monotone_witness :
  IDICalculator.calculate 3 1000 10 <= IDICalculator.calculate 7 1000 10
  /\ IDICalculator.calculate 3 1000 10 <= IDICalculator.calculate 3 2500 10.
Proof.
  split.
  - apply (proj1 (proj2 (score_monotone 3 7 1000 1000 10))). lia.
  - apply (proj2 (proj2 (score_monotone 3 3 1000 2500 10))). lia.
Defined.

(** X2: the imbalance is (capacity - demand) / 100, and 0 when capacity and
    demand add up to zero; it lies in [-1, 1] for scores in [0, 100]; the
    four values of the specification. *)
Theorem imbalance_values (hw sw : Q) :
  (hw + sw == 0 -> HardwareSoftwareBalancer.calculateImbalance hw sw == 0)
  /\ (~ hw + sw == 0 ->
      HardwareSoftwareBalancer.calculateImbalance hw sw == (hw - sw) / 100)
  /\ (0 <= hw <= 100 -> 0 <= sw <= 100 ->
      - (1) <= HardwareSoftwareBalancer.calculateImbalance hw sw <= 1)
  /\ HardwareSoftwareBalancer.calculateImbalance 50 50 == 0
  /\ HardwareSoftwareBalancer.calculateImbalance 100 0 == 1
  /\ HardwareSoftwareBalancer.calculateImbalance 0 100 == - (1)
  /\ HardwareSoftwareBalancer.calculateImbalance 0 0 == 0.
Proof.
  unfold HardwareSoftwareBalancer.calculateImbalance. exact_ops.
  split; [| split; [| split]].
  - intro E. split_cmp; [reflexivity | lra].
  - intro E. split_cmp; [lra |].
    rewrite !(Qdiv_by _ 100.0 0.01), !(Qdiv_by _ 100 0.01) by reflexivity. lra.
  - intros Hhw Hsw. split_cmp; [lra |].
    rewrite !(Qdiv_by _ 100.0 0.01) by reflexivity. lra.
  - repeat split; reflexivity.
Qed.

Lemma imbalance_values_witness :
  - (1) <= HardwareSoftwareBalancer.calculateImbalance 40 57.7 <= 1.
Proof.
  apply (proj1 (proj2 (proj2 (imbalance_values 40 57.7)))); split; by_computation.
Defined.

(** X3: a component is pruned exactly when its debt is at least 10.0, or
    its error rate at least 0.05, or its temperature is present and at least
    95, or its health below 20; the two cases of the specification. *)
Theorem should_prune_iff (debt error_rate health : Q) (temperature : option Q) :
  (NeuralPruning.shouldPrune debt error_rate health temperature = true
   <-> 10.0 <= debt \/ 0.05 <= error_rate
       \/ (exists temp : Q, temperature = Some temp /\ 95.0 <= temp)
       \/ health < 20.0)
  /\ NeuralPruning.shouldPrune 10.0 0 100 None = true
  /\ NeuralPruning.shouldPrune 9.99 0.049 21 (Some 94) = false.
Proof.
  split; [| split; reflexivity].
  unfold NeuralPruning.shouldPrune. thresholds. exact_ops.
  destruct temperature as [temp |]; split_cmp;
    (split;
     [ intro Hp; try discriminate Hp;
       first [ left; lra
             | right; left; lra
             | right; right; left; eexists; split; [reflexivity | lra]
             | right; right; right; lra ]
     | intro Hp; try reflexivity; exfalso;
       destruct Hp as [L | [L | [(t & Ht & L) | L]]];
       try (injection Ht as <-); try discriminate; lra ]).
Qed.

(** X4: the brake curve takes its values in [0, 1] and never increases with
    the debt. *)
Theorem throttle_level_range_and_monotone (debt debt' : Q) :
  0 <= IDIBrake.calculateThrottleLevel debt <= 1
  /\ (debt <= debt' ->
      IDIBrake.calculateThrottleLevel debt' <= IDIBrake.calculateThrottleLevel debt).
Proof.
  split.
  - on_segment debt; lra.
  - intro Hle. on_segment debt; on_segment debt'; lra.
Qed.

Lemma throttle_level_range_and_monotone_witness :
  IDIBrake.calculateThrottleLevel 8 <= IDIBrake.calculateThrottleLevel 4.
Proof.
  apply (proj2 (throttle_level_range_and_monotone 4 8)). by_computation.
Defined.

(** X5: the three bands of the balancing decision.  Inside the band the
    action is NONE and the throttle is unchanged; below -0.3 the action is
    THROTTLE and the throttle is reduced by min(|imbalance|, 0.5) with a
    floor of 0.2; above 0.3 the action is ALERT and the throttle is raised
    by 0.3 with a ceiling of 1.0. *)
Theorem balancing_action_bands (imbalance : Q) (component_id : string)
    (current_throttle : Q) (now : time_point) :
  let verdict :=
    HardwareSoftwareBalancer.getBalancingAction imbalance component_id
      current_throttle now in
  (Qabs imbalance < 0.3 ->
   MitigationResult.action verdict = MitigationAction.NONE
   /\ MitigationResult.throttle_level verdict = current_throttle)
  /\ (imbalance < - 0.3 ->
      MitigationResult.action verdict = MitigationAction.THROTTLE
      /\ MitigationResult.throttle_level verdict
         == Qmax (current_throttle - Qmin (Qabs imbalance) 0.5) 0.2)
  /\ (0.3 < imbalance ->
      MitigationResult.action verdict = MitigationAction.ALERT
      /\ MitigationResult.throttle_level verdict
         == Qmin (current_throttle + 0.3) 1.0)
  /\ MitigationResult.imbalance verdict = imbalance
  /\ MitigationResult.component_id verdict = component_id.
Proof.
  intro verdict.
  assert (T1 : std_max (current_throttle - std_min (Qabs imbalance) 0.5) 0.2
               == Qmax (current_throttle - Qmin (Qabs imbalance) 0.5) 0.2).
  { rewrite std_max_Qmax. exact_ops. rewrite std_min_Qmin. reflexivity. }
  assert (T2 : 0.3 < imbalance ->
               std_min (current_throttle + std_min imbalance 0.3) 1.0
               == Qmin (current_throttle + 0.3) 1.0).
  { intro Hhigh. rewrite std_min_Qmin. exact_ops. rewrite std_min_Qmin.
    rewrite (Q.min_r imbalance 0.3) by lra. reflexivity. }
  unfold verdict, HardwareSoftwareBalancer.getBalancingAction.
  thresholds. exact_ops.
  split_cmp;
    cbn [MitigationResult.action MitigationResult.throttle_level
         MitigationResult.imbalance MitigationResult.component_id];
    (split; [| split; [| split; [| split; reflexivity]]]);
    intro Hband; split_abs; try lra;
    (split; [reflexivity |]); try reflexivity;
    try exact T1; apply T2; exact Hband.
Qed.

Lemma balancing_action_bands_witness :
  MitigationResult.action
    (HardwareSoftwareBalancer.getBalancingAction (- 0.4) "component" 1 0)
  = MitigationAction.THROTTLE.
Proof.
  apply (proj1 (proj2 (balancing_action_bands (- 0.4) "component" 1 0))).
  by_computation.
Defined.

(** X6: [IDIBrake::applyBrake] picks the action by the severity tier
    (QUARANTINE, BRAKE, THROTTLE, NONE) and attaches the throttle level of
    the brake curve and the debt. *)
Theorem apply_brake_verdict (component_id : string) (debt : Q)
    (days loc deps : Z) (now : time_point) :
  let verdict := IDIBrake.applyBrake component_id debt days loc deps now in
  MitigationResult.action verdict
  = match IDICalculator.getSeverity debt with
    | SeverityLevel.HEALTHY => MitigationAction.NONE
    | SeverityLevel.WARNING => MitigationAction.THROTTLE
    | SeverityLevel.CRITICAL => MitigationAction.BRAKE
    | SeverityLevel.QUARANTINE => MitigationAction.QUARANTINE
    end
  /\ MitigationResult.throttle_level verdict = IDIBrake.calculateThrottleLevel debt
  /\ MitigationResult.idi_score verdict = debt
  /\ (MitigationResult.action verdict = MitigationAction.QUARANTINE
      <-> MitigationResult.throttle_level verdict == 0).
Proof.
  intro verdict. unfold verdict, IDIBrake.applyBrake.
  cbn [MitigationResult.action MitigationResult.throttle_level
       MitigationResult.idi_score].
  split; [| split; [reflexivity | split; [reflexivity |]]].
  - destruct (IDICalculator.getSeverity debt); reflexivity.
  - destruct (severity_cases debt) as [(-> & H) | [(-> & H) | [(-> & H) | (-> & H)]]];
      cbn [fst]; on_segment debt; split; intro E; try discriminate E;
      try reflexivity; try lra.
Qed.

(** X7: for cpu and memory usages in [0, 100] the hardware capacity lies in
    [0, 100]; for a non-negative throughput, latency and error rate and a
    positive target throughput the software demand lies in [0, 100]. *)
Theorem capacity_and_demand_ranges (self : HardwareSoftwareBalancer.t Q)
    (telemetry : TelemetryData.t Q) :
  (0 <= TelemetryData.cpu_usage telemetry <= 100 ->
   0 <= TelemetryData.memory_usage telemetry <= 100 ->
   0 <= HardwareSoftwareBalancer.calculateHardwareCapacity telemetry <= 100)
  /\ (0 <= TelemetryData.throughput telemetry ->
      0 < HardwareSoftwareBalancer.target_throughput_ self ->
      0 <= TelemetryData.io_latency_ms telemetry ->
      0 <= TelemetryData.error_rate telemetry ->
      0 <= HardwareSoftwareBalancer.calculateSoftwareDemand self telemetry <= 100).
Proof.
  split.
  - intros Hcpu Hmem. unfold HardwareSoftwareBalancer.calculateHardwareCapacity.
    thresholds. exact_ops.
    destruct (TelemetryData.temperature telemetry) as [temp |]; split_cmp; lra.
  - intros Hthr Htarget Hlat Herr.
    unfold HardwareSoftwareBalancer.calculateSoftwareDemand.
    thresholds. unfold std_min. exact_ops.
    assert (Hratio : 0 <= TelemetryData.throughput telemetry
                          / HardwareSoftwareBalancer.target_throughput_ self).
    { apply Qle_shift_div_l; [exact Htarget | lra]. }
    split_cmp; try (rewrite (Qdiv_by _ 100.0 0.01) by reflexivity); lra.
Qed.

Lemma capacity_and_demand_ranges_witness :
  0 <= HardwareSoftwareBalancer.calculateHardwareCapacity
         (scenario_snapshot "component" 0 0 None) <= 100
  /\ 0 <= HardwareSoftwareBalancer.calculateSoftwareDemand
            HardwareSoftwareBalancer.default
            (scenario_snapshot "component" 0 0 None) <= 100.
Proof.
  split.
  - apply (proj1 (capacity_and_demand_ranges HardwareSoftwareBalancer.default
                    (scenario_snapshot "component" 0 0 None)));
      split; by_computation.
  - apply (proj2 (capacity_and_demand_ranges HardwareSoftwareBalancer.default
                    (scenario_snapshot "component" 0 0 None)));
      by_computation.
Defined.

(** X8: [getRecentMetrics] returns the last [count] entries of the
    history, or the whole history when it holds no more than [count]. *)
Theorem recent_metrics_suffix (self : HardwareSoftwareBalancer.t Q) (count : nat) :
  HardwareSoftwareBalancer.getRecentMetrics self count
  = most_recent count (HardwareSoftwareBalancer.history_ self)
  /\ length (HardwareSoftwareBalancer.getRecentMetrics self count)
     = Nat.min count (length (HardwareSoftwareBalancer.history_ self)).
Proof.
  assert (E : HardwareSoftwareBalancer.getRecentMetrics self count
              = most_recent count (HardwareSoftwareBalancer.history_ self)).
  { unfold HardwareSoftwareBalancer.getRecentMetrics. rewrite most_recent_skipn.
    destruct (Nat.ltb_spec count (length (HardwareSoftwareBalancer.history_ self)))
      as [Hlt | Hge]; [reflexivity |].
    replace (length (HardwareSoftwareBalancer.history_ self) - count)%nat
      with 0%nat by lia.
    reflexivity. }
  split; [exact E |].
  rewrite E, most_recent_skipn, length_skipn. lia.
Qed.

(** X9: every state of a PID controller that its interface can produce
    keeps the integral within the anti-windup limits; [reset] zeroes the
    integral and the previous error, and [setTarget] leaves them alone. *)
Theorem pid_state_invariant (self : PIDController.t Q) (target : Q) :
  (pid_reachable self -> - 50.0 <= PIDController.integral_ self <= 50.0)
  /\ PIDController.integral_ (PIDController.reset self) == 0
  /\ PIDController.previous_error_ (PIDController.reset self) == 0
  /\ PIDController.integral_ (PIDController.setTarget self target)
     = PIDController.integral_ self
  /\ PIDController.previous_error_ (PIDController.setTarget self target)
     = PIDController.previous_error_ self
  /\ PIDController.target_ (PIDController.setTarget self target) = target.
Proof.
  split; [apply reachable_integral_bounds |].
  repeat split; reflexivity.
Qed.

Lemma pid_state_invariant_witness :
  - 50.0 <= PIDController.integral_
              (snd (PIDController.calculate PIDController.default (- 1000)))
         <= 50.0.
Proof.
  apply (proj1 (pid_state_invariant
                  (snd (PIDController.calculate PIDController.default (- 1000)))
                  70)).
  apply reach_calculate. apply reach_make.
Defined.

(** X10: however many snapshots the balancer is fed, a history of at most 20
    entries stays at most 20 entries long; and after 10 snapshots whose
    imbalance alternates between +0.5 and -0.5 the decision is made on a
    smoothed imbalance of 0, smaller in magnitude than either extreme, so
    the action is NONE. *)
Theorem alternating_imbalance_is_smoothed :
  (forall (snapshots : list (TelemetryData.t Q))
          (self : HardwareSoftwareBalancer.t Q) (current_throttle : Q),
     (length (HardwareSoftwareBalancer.history_ self) <= 20)%nat ->
     (length (HardwareSoftwareBalancer.history_
                (snd (balance_all self snapshots current_throttle))) <= 20)%nat)
  /\ HardwareSoftwareBalancer.calculateImbalance
       (HardwareSoftwareBalancer.calculateHardwareCapacity idle_snapshot)
       (HardwareSoftwareBalancer.calculateSoftwareDemand
          HardwareSoftwareBalancer.default idle_snapshot) == 0.5
  /\ HardwareSoftwareBalancer.calculateImbalance
       (HardwareSoftwareBalancer.calculateHardwareCapacity overloaded_snapshot)
       (HardwareSoftwareBalancer.calculateSoftwareDemand
          HardwareSoftwareBalancer.default overloaded_snapshot) == - 0.5
  /\ exists (earlier : list (MitigationResult.t Q)) (last : MitigationResult.t Q),
       fst (balance_all HardwareSoftwareBalancer.default (alternating 5) 1)
       = earlier ++ [last]
       /\ length earlier = 9%nat
       /\ MitigationResult.imbalance last == 0
       /\ MitigationResult.action last = MitigationAction.NONE
       /\ MitigationResult.throttle_level last == 1.
Proof.
  split; [| split; [reflexivity | split; [reflexivity |]]].
  - induction snapshots as [| snapshot rest IH]; intros self current_throttle Hlen.
    + exact Hlen.
    + cbn [balance_all].
      destruct (HardwareSoftwareBalancer.balance self snapshot current_throttle 0 0)
        as [verdict next] eqn:Hcall.
      specialize (IH next current_throttle).
      destruct (balance_all next rest current_throttle) as [verdicts final].
      cbn [snd] in *. apply IH.
      replace next with
        (snd (HardwareSoftwareBalancer.balance self snapshot current_throttle 0 0))
        by (rewrite Hcall; reflexivity).
      unfold HardwareSoftwareBalancer.balance.
      cbn [snd HardwareSoftwareBalancer.history_].
      rewrite bound_history_length. lia.
  - destruct (fst (balance_all HardwareSoftwareBalancer.default (alternating 5) 1))
      as [| v1 [| v2 [| v3 [| v4 [| v5 [| v6 [| v7 [| v8 [| v9 [| v10 [| ? ?]]]]]]]]]]]
      eqn:Hrun; try (vm_compute in Hrun; discriminate Hrun).
    exists [v1; v2; v3; v4; v5; v6; v7; v8; v9], v10.
    split; [reflexivity | split; [reflexivity |]].
    assert (Hlast : nth 9 (fst (balance_all HardwareSoftwareBalancer.default
                                  (alternating 5) 1)) v10 = v10)
      by (rewrite Hrun; reflexivity).
    rewrite <- Hlast. clear. vm_compute. repeat split; reflexivity.
Qed.

(* ================================================================== *)
(** * Edge behaviour and composition *)
(* ================================================================== *)

(** The score grows with the days and with the lines, taken together. *)
Lemma calculate_mono (days days' loc loc' deps : Z) :
  (days <= days')%Z -> (loc <= loc')%Z ->
  IDICalculator.calculate days loc deps <= IDICalculator.calculate days' loc' deps.
Proof.
  intros Hd Hl. unfold IDICalculator.calculate. exact_ops.
  pose proof (int_max_ge days 0) as [_ Hd0].
  pose proof (int_max_ge loc 0) as [_ Hl0].
  pose proof (int_max_ge deps 1) as [_ Hp1].
  pose proof (int_max_mono days days' 0 Hd) as Hdm.
  pose proof (int_max_mono loc loc' 0 Hl) as Hlm.
  rewrite !(Qdiv_by _ 1000.0 0.001), !(Qdiv_by _ 10.0 0.1) by reflexivity.
  rewrite Zle_Qle in Hd0, Hl0, Hp1, Hdm, Hlm.
  change (inject_Z 0) with 0 in *. change (inject_Z 1) with 1 in *.
  set (d := inject_Z (int_max days 0)) in *.
  set (d' := inject_Z (int_max days' 0)) in *.
  set (l := inject_Z (int_max loc 0)) in *.
  set (l' := inject_Z (int_max loc' 0)) in *.
  set (p := inject_Z (int_max deps 1)) in *.
  assert (H1 : d * l <= d' * l').
  { apply Qle_trans with (d' * l).
    - apply Qmult_le_compat_r; assumption.
    - rewrite !(Qmult_comm d'). apply Qmult_le_compat_r; [assumption | lra]. }
  assert (H2 : 0 <= p * 0.1) by lra.
  setoid_replace (d * (l * 0.001) * (p * 0.1))
    with (d * l * (0.001 * (p * 0.1))) by ring.
  setoid_replace (d' * (l' * 0.001) * (p * 0.1))
    with (d' * l' * (0.001 * (p * 0.1))) by ring.
  apply Qmult_le_compat_r; [exact H1 | lra].
Qed.

(** X16: the clamps of the debt score.  A non-positive number of days or of
    lines gives the score 0; a dependency count of 1 or less counts as 1;
    on non-negative days and lines and at least one dependency the score is
    days x lines x dependencies / 10000; and the score never decreases with
    the dependency count. *)
Theorem score_clamps_and_closed_form (days loc deps deps' : Z) :
  ((days <= 0)%Z \/ (loc <= 0)%Z -> IDICalculator.calculate days loc deps == 0)
  /\ ((deps <= 1)%Z ->
      IDICalculator.calculate days loc deps = IDICalculator.calculate days loc 1)
  /\ ((0 <= days)%Z -> (0 <= loc)%Z -> (1 <= deps)%Z ->
      IDICalculator.calculate days loc deps
      == inject_Z (days * loc * deps) / 10000)
  /\ ((deps <= deps')%Z ->
      IDICalculator.calculate days loc deps
      <= IDICalculator.calculate days loc deps').
Proof.
  unfold IDICalculator.calculate. exact_ops.
  split; [| split; [| split]].
  - intros [Hd | Hl].
    + assert (int_max days 0 = 0%Z) as ->
        by (unfold int_max; destruct (Z.ltb_spec days 0); lia).
      change (inject_Z 0) with 0. ring.
    + assert (int_max loc 0 = 0%Z) as ->
        by (unfold int_max; destruct (Z.ltb_spec loc 0); lia).
      change (inject_Z 0) with 0. field.
  - intro Hp.
    assert (int_max deps 1 = int_max 1 1) as ->
      by (unfold int_max; destruct (Z.ltb_spec deps 1), (Z.ltb_spec 1 1); lia).
    reflexivity.
  - intros Hd Hl Hp.
    assert (int_max days 0 = days) as ->
      by (unfold int_max; destruct (Z.ltb_spec days 0); lia).
    assert (int_max loc 0 = loc) as ->
      by (unfold int_max; destruct (Z.ltb_spec loc 0); lia).
    assert (int_max deps 1 = deps) as ->
      by (unfold int_max; destruct (Z.ltb_spec deps 1); lia).
    rewrite !inject_Z_mult. field.
  - intro Hp.
    pose proof (int_max_ge days 0) as [_ Hd0].
    pose proof (int_max_ge loc 0) as [_ Hl0].
    pose proof (int_max_mono deps deps' 1 Hp) as Hpm.
    rewrite Zle_Qle in Hd0, Hl0, Hpm. change (inject_Z 0) with 0 in *.
    rewrite !(Qdiv_by _ 1000.0 0.001), !(Qdiv_by _ 10.0 0.1) by reflexivity.
    rewrite !(Qmult_comm (inject_Z (int_max days 0) * _)).
    apply Qmult_le_compat_r; [lra |].
    apply Qmult_le_0_compat; [exact Hd0 | lra].
Qed.

Lemma score_clamps_and_closed_form_witness :
  IDICalculator.calculate (- 5) 1000 10 == 0
  /\ IDICalculator.calculate 7 1000 0 = IDICalculator.calculate 7 1000 1
  /\ IDICalculator.calculate 7 1000 10 == inject_Z (7 * 1000 * 10) / 10000
  /\ IDICalculator.calculate 7 1000 10 <= IDICalculator.calculate 7 1000 25.
Proof.
  split; [| split; [| split]].
  - apply (proj1 (score_clamps_and_closed_form (- 5) 1000 10 10)). left. lia.
  - apply (proj1 (proj2 (score_clamps_and_closed_form 7 1000 0 0))). lia.
  - apply (proj1 (proj2 (proj2 (score_clamps_and_closed_form 7 1000 10 10))));
      lia.
  - apply (proj2 (proj2 (proj2 (score_clamps_and_closed_form 7 1000 10 25)))).
    lia.
Defined.

Lemma Qtrunc_nonneg (q : Q) : 0 <= q -> (0 <= Qtrunc q)%Z.
Proof.
  intro Hq. destruct (Qtrunc_toward_zero q) as [Hpos _].
  specialize (Hpos Hq). destruct Hpos as [_ Hup].
  assert (L : inject_Z (- 1) < inject_Z (Qtrunc q)).
  { change (inject_Z (- 1)) with (- (1)). lra. }
  rewrite <- Zlt_Qlt in L. lia.
Qed.

Lemma Qtrunc_zero (q : Q) : Qtrunc (q * inject_Z 0) = 0%Z.
Proof.
  destruct q as [n d]. unfold Qtrunc, Qmult, inject_Z. cbn [Qnum Qden].
  rewrite Z.mul_0_r. apply Z.quot_0_l. lia.
Qed.

(** X17: the prediction composes with the score.  Looking zero days ahead
    gives the current score whatever the rate; and with a non-negative rate
    and a non-negative number of days ahead, a prediction that has a result
    is never below the current score. *)
Theorem predict_extends_score (days loc deps days_ahead : Z) (daily_loc_rate : Q) :
  (in_int days = true -> in_int loc = true ->
   IDICalculator.predictIDI days loc deps 0 daily_loc_rate
   = Some (IDICalculator.calculate days loc deps))
  /\ (forall predicted : Q,
        0 <= daily_loc_rate -> (0 <= days_ahead)%Z ->
        IDICalculator.predictIDI days loc deps days_ahead daily_loc_rate
        = Some predicted ->
        IDICalculator.calculate days loc deps <= predicted).
Proof.
  split.
  - intros Hd Hl. unfold IDICalculator.predictIDI. exact_ops.
    unfold int_add at 1. rewrite Z.add_0_r, Hd. cbn [bind].
    unfold Q_to_int. rewrite Qtrunc_zero. change (in_int 0) with true.
    cbn [bind]. unfold int_add. rewrite Z.add_0_r, Hl. reflexivity.
  - intros predicted Hrate Hahead.
    unfold IDICalculator.predictIDI, int_add, bind. exact_ops. unfold Q_to_int.
    destruct (in_int (days + days_ahead)); [| discriminate].
    destruct (in_int (Qtrunc (daily_loc_rate * inject_Z days_ahead)));
      [| discriminate].
    destruct (in_int (loc + Qtrunc (daily_loc_rate * inject_Z days_ahead)));
      [| discriminate].
    intro E. injection E as <-.
    assert (0 <= Qtrunc (daily_loc_rate * inject_Z days_ahead))%Z.
    { apply Qtrunc_nonneg. apply Qmult_le_0_compat; [exact Hrate |].
      change 0 with (inject_Z 0). rewrite <- Zle_Qle. exact Hahead. }
    apply calculate_mono; lia.
Qed.

Lemma predict_extends_score_witness :
  IDICalculator.predictIDI 3 1000 10 0 0.75
  = Some (IDICalculator.calculate 3 1000 10)
  /\ IDICalculator.calculate 3 1000 10 <= IDICalculator.calculate 10 1005 10.
Proof.
  split.
  - apply (proj1 (predict_extends_score 3 1000 10 0 0.75)); reflexivity.
  - apply (proj2 (predict_extends_score 3 1000 10 7 0.75)
             (IDICalculator.calculate 10 1005 10)).
    + by_computation.
    + lia.
    + reflexivity.
Defined.

(** X18: the action of a brake verdict bounds its throttle: NONE goes with
    full speed 1.0, THROTTLE with a throttle in (0.7, 1.0], BRAKE with one in
    (0.1, 0.7] and QUARANTINE with 0.0; a throttle below 1.0 never comes
    with NONE; the action is never REBALANCE, ALERT or AUTO_INTEGRATE; and
    the verdict does not depend on the days, lines and dependencies passed
    along with the debt. *)
Theorem brake_verdict_bands (component_id : string) (debt : Q)
    (days loc deps : Z) (now : time_point) :
  let verdict := IDIBrake.applyBrake component_id debt days loc deps now in
  let throttle := MitigationResult.throttle_level verdict in
  (MitigationResult.action verdict = MitigationAction.NONE -> throttle == 1)
  /\ (MitigationResult.action verdict = MitigationAction.THROTTLE ->
      0.7 < throttle <= 1)
  /\ (MitigationResult.action verdict = MitigationAction.BRAKE ->
      0.1 < throttle <= 0.7)
  /\ (MitigationResult.action verdict = MitigationAction.QUARANTINE ->
      throttle == 0)
  /\ (throttle < 1 ->
      MitigationResult.action verdict <> MitigationAction.NONE)
  /\ MitigationResult.action verdict <> MitigationAction.REBALANCE
  /\ MitigationResult.action verdict <> MitigationAction.ALERT
  /\ MitigationResult.action verdict <> MitigationAction.AUTO_INTEGRATE
  /\ (forall days' loc' deps' : Z,
        IDIBrake.applyBrake component_id debt days' loc' deps' now = verdict).
Proof.
  intros verdict throttle. unfold throttle, verdict, IDIBrake.applyBrake.
  cbn [MitigationResult.action MitigationResult.throttle_level].
  destruct (severity_cases debt)
    as [(-> & H) | [(-> & H) | [(-> & H) | (-> & H)]]];
    cbn [fst]; on_segment debt; try lra;
    repeat split; intros; try discriminate; try reflexivity; try lra.
Qed.

Lemma brake_verdict_bands_witness :
  0.1 < MitigationResult.throttle_level
          (IDIBrake.applyBrake "component" 8 0 0 0 0) <= 0.7.
Proof.
  apply (proj1 (proj2 (proj2 (brake_verdict_bands "component" 8 0 0 0 0)))).
  reflexivity.
Defined.


(** A controller with zero integral and zero previous error that reads its
    target answers 0. *)
Lemma pid_rest_step (self : PIDController.t Q) :
  PIDController.integral_ self == 0 ->
  PIDController.previous_error_ self == 0 ->
  fst (PIDController.calculate self (PIDController.target_ self)) == 0.
Proof.
  destruct self as [kp ki kd I P t].
  cbn [PIDController.integral_ PIDController.previous_error_
       PIDController.target_].
  intros HI HP. unfold PIDController.calculate.
  cbn [fst PIDController.integral_ PIDController.previous_error_
       PIDController.target_ PIDController.kp_ PIDController.ki_
       PIDController.kd_].
  unfold PIDController.INTEGRAL_MIN, PIDController.INTEGRAL_MAX.
  assert (EJ : std_clamp (I + (t - t)) (- (50.0)) 50.0 == 0).
  { unfold std_clamp. exact_ops. split_cmp; lra. }
  exact_ops.
  assert (EX : (kp * (t - t) + ki * std_clamp (I + (t - t)) (- (50.0)) 50.0
                + kd * (t - t - P)) / 100.0 == 0).
  { rewrite EJ, HP. field. }
  set (X := (kp * (t - t) + ki * std_clamp (I + (t - t)) (- (50.0)) 50.0
             + kd * (t - t - P)) / 100.0) in *.
  unfold std_clamp at 1. exact_ops. split_cmp; lra.
Qed.

(** X19: [calculate] never touches the gains and the target, over any
    sequence of readings; and a controller whose integral and previous
    error are zero (a fresh or reset one) that keeps reading its target
    stays at rest: the integral and the previous error stay zero and the
    adjustment is 0. *)
Theorem pid_frame_and_rest (self : PIDController.t Q) (readings : list Q)
    (n : nat) :
  let after := PIDController.run self readings in
  let resting := PIDController.run self (repeat (PIDController.target_ self) n) in
  (PIDController.kp_ after = PIDController.kp_ self
   /\ PIDController.ki_ after = PIDController.ki_ self
   /\ PIDController.kd_ after = PIDController.kd_ self
   /\ PIDController.target_ after = PIDController.target_ self)
  /\ (PIDController.integral_ self == 0 ->
      PIDController.previous_error_ self == 0 ->
      PIDController.integral_ resting == 0
      /\ PIDController.previous_error_ resting == 0
      /\ fst (PIDController.calculate resting (PIDController.target_ self)) == 0).
Proof.
  intros after resting. split.
  - unfold after. clear after resting. revert self.
    induction readings as [| v rest IH]; intro self.
    + repeat split.
    + cbn [PIDController.run].
      destruct (IH (snd (PIDController.calculate self v))) as (-> & -> & -> & ->).
      repeat split.
  - intros Hint Hprev.
    assert (Hrest : PIDController.integral_ resting == 0
                    /\ PIDController.previous_error_ resting == 0
                    /\ PIDController.target_ resting = PIDController.target_ self
                    /\ PIDController.kp_ resting = PIDController.kp_ self
                    /\ PIDController.ki_ resting = PIDController.ki_ self
                    /\ PIDController.kd_ resting = PIDController.kd_ self).
    { unfold resting. clear resting after.
      set (target := PIDController.target_ self).
      assert (Ht : PIDController.target_ self = target) by reflexivity.
      clearbody target. revert self Hint Hprev Ht.
      induction n as [| n IH]; intros self Hint Hprev Ht.
      - cbn [repeat PIDController.run]. repeat split; assumption.
      - cbn [repeat PIDController.run].
        destruct (IH (snd (PIDController.calculate self target)))
          as (I1 & I2 & I3 & I4 & I5 & I6).
        + unfold PIDController.calculate. cbn [snd PIDController.integral_].
          unfold std_clamp, PIDController.INTEGRAL_MIN, PIDController.INTEGRAL_MAX.
          exact_ops. rewrite Ht. split_cmp; lra.
        + unfold PIDController.calculate.
          cbn [snd PIDController.previous_error_]. exact_ops. rewrite Ht. lra.
        + exact Ht.
        + repeat split; assumption. }
    destruct Hrest as (I1 & I2 & I3 & _).
    split; [exact I1 | split; [exact I2 |]].
    rewrite <- I3. now apply pid_rest_step.
Qed.

Lemma pid_frame_and_rest_witness :
  PIDController.integral_
    (PIDController.run PIDController.default
       (repeat (PIDController.target_ PIDController.default) 5)) == 0
  /\ PIDController.previous_error_
       (PIDController.run PIDController.default
          (repeat (PIDController.target_ PIDController.default) 5)) == 0
  /\ fst (PIDController.calculate
            (PIDController.run PIDController.default
               (repeat (PIDController.target_ PIDController.default) 5))
            (PIDController.target_ PIDController.default)) == 0.
Proof.
  apply (proj2 (pid_frame_and_rest PIDController.default [] 5)).
  - reflexivity.
  - reflexivity.
Defined.

(** Under a constant non-positive error [e] the integral after [n] steps is
    at most [max (-50) (integral + n * e)]: the upper limit never cuts. *)
(** X21: the throttle a balancing decision hands back.  For a current
    throttle in [0, 1] and any imbalance other than exactly -0.3 the new
    throttle lies in [0, 1]; a THROTTLE decision never hands back less than
    0.2 and, when the current throttle is at least 0.2, never more than the
    current throttle, whereas from a current throttle below 0.2 it raises
    the throttle to 0.2; an ALERT decision above the band never lowers a
    throttle that is at most 1. *)
Theorem balancing_throttle_range (imbalance : Q) (component_id : string)
    (current_throttle : Q) (now : time_point) :
  let verdict :=
    HardwareSoftwareBalancer.getBalancingAction imbalance component_id
      current_throttle now in
  let throttle := MitigationResult.throttle_level verdict in
  (0 <= current_throttle <= 1 -> ~ imbalance == - 0.3 -> 0 <= throttle <= 1)
  /\ (MitigationResult.action verdict = MitigationAction.THROTTLE ->
      0.2 <= throttle
      /\ (0.2 <= current_throttle -> throttle <= current_throttle)
      /\ (current_throttle < 0.2 -> throttle == 0.2))
  /\ (0.3 <= imbalance -> current_throttle <= 1 ->
      current_throttle <= throttle).
Proof.
  intros verdict throttle.
  unfold throttle, verdict, HardwareSoftwareBalancer.getBalancingAction.
  unfold std_min, std_max. thresholds. exact_ops.
  split_cmp;
    cbn [MitigationResult.action MitigationResult.throttle_level];
    repeat split; intros; try discriminate; split_abs; lra.
Qed.

Lemma balancing_throttle_range_witness :
  MitigationResult.throttle_level
    (HardwareSoftwareBalancer.getBalancingAction (- 0.4) "component" 0.1 0)
  == 0.2.
Proof.
  apply (proj1 (proj2
           (balancing_throttle_range (- 0.4) "component" 0.1 0))).
  - reflexivity.
  - by_computation.
Defined.

(** X22: what a call of [balance] leaves behind.  The target throughput is
    unchanged; the history ends with the sample of this call (capacity,
    demand, imbalance and the clock reading), which [getRecentMetrics(1)]
    then returns; below 20 entries nothing is evicted, and at 20 entries
    exactly the oldest one is. *)
Theorem balance_records_sample (self : HardwareSoftwareBalancer.t Q)
    (telemetry : TelemetryData.t Q) (current_throttle : Q)
    (now_record now_result : time_point) :
  let hw := HardwareSoftwareBalancer.calculateHardwareCapacity telemetry in
  let sw := HardwareSoftwareBalancer.calculateSoftwareDemand self telemetry in
  let sample := {| BalanceMetrics.hw_capacity := hw;
                   BalanceMetrics.sw_demand := sw;
                   BalanceMetrics.imbalance :=
                     HardwareSoftwareBalancer.calculateImbalance hw sw;
                   BalanceMetrics.timestamp := now_record |} in
  let next :=
    snd (HardwareSoftwareBalancer.balance self telemetry current_throttle
           now_record now_result) in
  let old := HardwareSoftwareBalancer.history_ self in
  HardwareSoftwareBalancer.target_throughput_ next
  = HardwareSoftwareBalancer.target_throughput_ self
  /\ (exists older : list (BalanceMetrics.t Q),
        HardwareSoftwareBalancer.history_ next = older ++ [sample])
  /\ HardwareSoftwareBalancer.getRecentMetrics next 1 = [sample]
  /\ ((length old < 20)%nat ->
      HardwareSoftwareBalancer.history_ next = old ++ [sample])
  /\ ((length old = 20)%nat ->
      HardwareSoftwareBalancer.history_ next = tl old ++ [sample]).
Proof.
  intros hw sw sample next old.
  assert (Hnext : HardwareSoftwareBalancer.history_ next
                  = skipn (length (old ++ [sample]) - 20) (old ++ [sample])).
  { unfold next, HardwareSoftwareBalancer.balance.
    cbn [snd HardwareSoftwareBalancer.history_]. apply bound_history_skipn. }
  assert (Hlast : forall k : nat, (k <= length old)%nat ->
                  skipn k (old ++ [sample]) = skipn k old ++ [sample]).
  { intros k Hk. rewrite skipn_app.
    replace (k - length old)%nat with 0%nat by lia. reflexivity. }
  assert (Hk : (length (old ++ [sample]) - 20 <= length old)%nat)
    by (rewrite length_app; cbn [length]; lia).
  split; [reflexivity | split; [| split; [| split]]].
  - exists (skipn (length (old ++ [sample]) - 20) old).
    rewrite Hnext. now apply Hlast.
  - unfold HardwareSoftwareBalancer.getRecentMetrics.
    rewrite Hnext, (Hlast _ Hk).
    set (kept := skipn (length (old ++ [sample]) - 20) old).
    rewrite length_app. cbn [length].
    destruct (Nat.ltb_spec 1 (length kept + 1)) as [Hlong | Hshort].
    + replace (length kept + 1 - 1)%nat with (length kept) by lia.
      rewrite skipn_app, skipn_all, Nat.sub_diag. reflexivity.
    + destruct kept; [reflexivity | cbn [length] in Hshort; lia].
  - intro Hlt. rewrite Hnext, length_app. cbn [length].
    replace (length old + 1 - 20)%nat with 0%nat by lia. reflexivity.
  - intro Heq. rewrite Hnext, length_app. cbn [length].
    replace (length old + 1 - 20)%nat with 1%nat by lia.
    destruct old as [| m rest]; [discriminate Heq | reflexivity].
Qed.

Lemma balance_records_sample_witness :
  HardwareSoftwareBalancer.history_
    (snd (HardwareSoftwareBalancer.balance HardwareSoftwareBalancer.default
            idle_snapshot 1%Q 5%Z 6%Z))
  = HardwareSoftwareBalancer.history_ HardwareSoftwareBalancer.default
    ++ [ {| BalanceMetrics.hw_capacity :=
              HardwareSoftwareBalancer.calculateHardwareCapacity idle_snapshot;
            BalanceMetrics.sw_demand :=
              HardwareSoftwareBalancer.calculateSoftwareDemand
                HardwareSoftwareBalancer.default idle_snapshot;
            BalanceMetrics.imbalance :=
              HardwareSoftwareBalancer.calculateImbalance
                (HardwareSoftwareBalancer.calculateHardwareCapacity idle_snapshot)
                (HardwareSoftwareBalancer.calculateSoftwareDemand
                   HardwareSoftwareBalancer.default idle_snapshot);
            BalanceMetrics.timestamp := 5%Z |} ].
Proof.
  apply (proj1 (proj2 (proj2 (proj2
           (balance_records_sample HardwareSoftwareBalancer.default
              idle_snapshot 1%Q 5%Z 6%Z))))).
  cbn [length HardwareSoftwareBalancer.history_
       HardwareSoftwareBalancer.default HardwareSoftwareBalancer.make]. lia.
Defined.



(** X25: for a positive target throughput the software demand never falls
    when the throughput, the latency or the error rate rises; it is 100 as
    soon as the throughput has reached the target, the latency is above 500
    ms and the error rate is at least 0.1. *)
Theorem software_demand_monotone (self : HardwareSoftwareBalancer.t Q)
    (calm busy : TelemetryData.t Q) :
  0 < HardwareSoftwareBalancer.target_throughput_ self ->
  (TelemetryData.throughput calm <= TelemetryData.throughput busy ->
   TelemetryData.io_latency_ms calm <= TelemetryData.io_latency_ms busy ->
   TelemetryData.error_rate calm <= TelemetryData.error_rate busy ->
   HardwareSoftwareBalancer.calculateSoftwareDemand self calm
   <= HardwareSoftwareBalancer.calculateSoftwareDemand self busy)
  /\ (HardwareSoftwareBalancer.target_throughput_ self
      <= TelemetryData.throughput busy ->
      500 < TelemetryData.io_latency_ms busy ->
      0.1 <= TelemetryData.error_rate busy ->
      HardwareSoftwareBalancer.calculateSoftwareDemand self busy == 100).
Proof.
  intro Htarget.
  assert (Hdiv : forall a b : Q, a <= b ->
            a / HardwareSoftwareBalancer.target_throughput_ self
            <= b / HardwareSoftwareBalancer.target_throughput_ self).
  { intros a b Hab. unfold Qdiv. apply Qmult_le_compat_r; [exact Hab |].
    apply Qlt_le_weak, Qinv_lt_0_compat, Htarget. }
  split.
  - intros Hthr Hlat Herr. apply Hdiv in Hthr.
    unfold HardwareSoftwareBalancer.calculateSoftwareDemand.
    thresholds. unfold std_min. exact_ops.
    set (r := TelemetryData.throughput calm / _) in *.
    set (r' := TelemetryData.throughput busy / _) in *.
    split_cmp; repeat rewrite (Qdiv_by _ 100.0 0.01) by reflexivity; lra.
  - intros Hthr Hlat Herr.
    assert (Hratio : 1 <= TelemetryData.throughput busy
                          / HardwareSoftwareBalancer.target_throughput_ self).
    { apply Qle_shift_div_l; [exact Htarget | lra]. }
    unfold HardwareSoftwareBalancer.calculateSoftwareDemand.
    thresholds. unfold std_min. exact_ops.
    set (r' := TelemetryData.throughput busy / _) in *.
    split_cmp; repeat rewrite (Qdiv_by _ 100.0 0.01) by reflexivity; lra.
Qed.

Lemma software_demand_monotone_witness :
  HardwareSoftwareBalancer.calculateSoftwareDemand
    HardwareSoftwareBalancer.default idle_snapshot
  <= HardwareSoftwareBalancer.calculateSoftwareDemand
       HardwareSoftwareBalancer.default overloaded_snapshot.
Proof.
  refine (proj1 (software_demand_monotone HardwareSoftwareBalancer.default
                   idle_snapshot overloaded_snapshot _) _ _ _);
    by_computation.
Defined.

(** X26: pruning and restoring leave a gap.  A component that can be
    restored is never pruned for its debt or its health, and one that is
    pruned for its debt or health cannot be restored however long it has
    been quarantined; a debt in [5, 10) neither prunes nor allows the
    restore.  The brake quarantines exactly the debts that the pruning check
    prunes on the debt alone. *)
Theorem restore_and_prune_hysteresis (ticks_per_second : positive)
    (debt error_rate health : Q) (temperature : option Q)
    (quarantined_at now : time_point) :
  (NeuralPruning.canRestore ticks_per_second debt health quarantined_at now
   = Some true ->
   NeuralPruning.shouldPrune debt error_rate health temperature
   = NeuralPruning.shouldPrune 0 error_rate 100 temperature)
  /\ (NeuralPruning.shouldPrune debt 0 health None = true ->
      NeuralPruning.canRestore ticks_per_second debt health quarantined_at now
      = Some false)
  /\ (5 <= debt < 10 -> 20 <= health ->
      NeuralPruning.shouldPrune debt 0 health None = false
      /\ NeuralPruning.canRestore ticks_per_second debt health quarantined_at now
         = Some false)
  /\ (forall (component_id : string) (days loc deps : Z) (at_time : time_point),
        MitigationResult.action
          (IDIBrake.applyBrake component_id debt days loc deps at_time)
        = MitigationAction.QUARANTINE
        <-> NeuralPruning.shouldPrune debt 0 100 None = true).
Proof.
  unfold NeuralPruning.canRestore, NeuralPruning.shouldPrune,
    IDIBrake.applyBrake, IDICalculator.getSeverity.
  cbn [MitigationResult.action].
  thresholds. exact_ops.
  split; [| split; [| split]].
  - destruct temperature as [temp |]; split_cmp;
      intros; try discriminate; try reflexivity; lra.
  - split_cmp; intros; try discriminate; try reflexivity; lra.
  - intros Hdebt Hhealth. split_cmp; split; try reflexivity; lra.
  - intros component_id days loc deps at_time.
    split_cmp; cbn [fst]; split; intros; try discriminate; try reflexivity; lra.
Qed.

Lemma restore_and_prune_hysteresis_witness :
  NeuralPruning.shouldPrune 7 0 50 None = false
  /\ NeuralPruning.canRestore 1000000000 7 50 0 3600000000000 = Some false.
Proof.
  apply (proj1 (proj2 (proj2
           (restore_and_prune_hysteresis 1000000000 7 0 50 None
              0 3600000000000)))).
  - split; by_computation.
  - by_computation.
Defined.

(** X27: the three stages composed.  The final throttle of a component that
    is not quarantined, made from the throttle of the brake for its debt and
    the throttle of the balancing action for an imbalance other than -0.3
    and a current throttle in [0, 1], lies in [0, 1] and never exceeds the
    brake curve; it is 0 as soon as the debt reaches 10, whatever the
    quarantine flag says; and for a healthy debt and a balanced system it is
    the current throttle. *)
Theorem pipeline_throttle (debt imbalance current_throttle : Q)
    (component_id : string) (days loc deps : Z) (now : time_point)
    (is_quarantined : bool) :
  let braked := IDIBrake.applyBrake component_id debt days loc deps now in
  let balanced :=
    HardwareSoftwareBalancer.getBalancingAction imbalance component_id
      current_throttle now in
  let final :=
    CombinedThrottleCalculator.calculate
      (MitigationResult.throttle_level braked)
      (MitigationResult.throttle_level balanced) is_quarantined in
  0 <= current_throttle <= 1 ->
  ~ imbalance == - 0.3 ->
  0 <= final <= 1
  /\ final <= IDIBrake.calculateThrottleLevel debt
  /\ (10 <= debt -> final == 0)
  /\ (is_quarantined = false -> debt < 3 -> Qabs imbalance < 0.3 ->
      final == current_throttle).
Proof.
  intros braked balanced final Hcur Himb.
  unfold final, braked, balanced, CombinedThrottleCalculator.calculate,
    IDIBrake.applyBrake.
  cbn [MitigationResult.throttle_level].
  assert (Hbal : 0 <= MitigationResult.throttle_level
                        (HardwareSoftwareBalancer.getBalancingAction
                           imbalance component_id current_throttle now) <= 1
                 /\ (Qabs imbalance < 0.3 ->
                     MitigationResult.throttle_level
                       (HardwareSoftwareBalancer.getBalancingAction
                          imbalance component_id current_throttle now)
                     == current_throttle)).
  { unfold HardwareSoftwareBalancer.getBalancingAction.
    unfold std_min, std_max. thresholds. exact_ops.
    split_cmp; cbn [MitigationResult.throttle_level];
      repeat split; intros; split_abs; lra. }
  destruct Hbal as (Hrange & Hkeep).
  set (b := MitigationResult.throttle_level _) in *.
  on_segment debt; unfold std_min; exact_ops;
    destruct is_quarantined; split_cmp;
    repeat split; intros; try discriminate; try specialize (Hkeep ltac:(assumption));
    lra.
Qed.

Lemma pipeline_throttle_witness :
  0 <= CombinedThrottleCalculator.calculate
         (MitigationResult.throttle_level
            (IDIBrake.applyBrake "component" 4 0 0 0 0))
         (MitigationResult.throttle_level
            (HardwareSoftwareBalancer.getBalancingAction (- 0.4) "component"
               0.9 0))
         false
    <= 1.
Proof.
  apply (pipeline_throttle 4 (- 0.4) 0.9 "component" 0 0 0 0 false).
  - split; by_computation.
  - unfold Qeq; simpl; lia.
Defined.

(* ================================================================== *)
(** * The comparisons of binary64 *)
(* ================================================================== *)

(** On numbers (every value but NaN) the order of binary64 is total:
    [b <= a] holds exactly when [a < b] does not. *)

Lemma SFcompare_antisym (a b : spec_float) :
  SFcompare b a = option_map CompOpp (SFcompare a b).
Proof.
  destruct a as [sa | sa | | sa ma ea], b as [sb | sb | | sb mb eb];
    cbn [SFcompare option_map CompOpp];
    repeat match goal with s : bool |- _ => destruct s end;
    try reflexivity;
    rewrite (Z.compare_antisym ea eb); destruct (ea ?= eb)%Z;
    cbn [CompOpp]; try reflexivity;
    rewrite (Pos.compare_cont_antisym ma mb Eq); cbn [CompOpp];
    try rewrite CompOpp_involutive; reflexivity.
Qed.

Lemma is_nan_false (x : float) :
  PrimFloat.is_nan x = false -> Prim2SF x <> S754_nan.
Proof.
  unfold PrimFloat.is_nan. rewrite FloatAxioms.eqb_spec. intros Hx E.
  rewrite E in Hx. discriminate Hx.
Qed.

Lemma float_leb_negb_ltb (a b : float) :
  PrimFloat.is_nan a = false -> PrimFloat.is_nan b = false ->
  PrimFloat.leb b a = negb (PrimFloat.ltb a b).
Proof.
  intros Ha Hb. apply is_nan_false in Ha, Hb.
  rewrite FloatAxioms.leb_spec, FloatAxioms.ltb_spec. unfold SFleb, SFltb.
  rewrite (SFcompare_antisym (Prim2SF a) (Prim2SF b)).
  destruct (Prim2SF a) as [sa | sa | | sa ma ea] eqn:Ea; try congruence;
    destruct (Prim2SF b) as [sb | sb | | sb mb eb] eqn:Eb; try congruence;
    destruct (SFcompare _ _) as [[| |] |] eqn:Ec; try reflexivity;
    cbn in Ec; repeat match goal with s : bool |- _ => destruct s end;
    discriminate Ec.
Qed.

(** The strict order of the specification is transitive. *)
Lemma SFcompare_Lt_trans (a b c : spec_float) :
  SFcompare a b = Some Lt -> SFcompare b c = Some Lt -> SFcompare a c = Some Lt.
Proof.
  destruct a as [sa | sa | | sa ma ea], b as [sb | sb | | sb mb eb],
           c as [sc | sc | | sc mc ec];
    cbn [SFcompare];
    repeat match goal with s : bool |- _ => destruct s end;
    try discriminate; try reflexivity; intros Hab Hbc;
    injection Hab as Hab; injection Hbc as Hbc; f_equal;
    change (Pos.compare_cont Eq) with Pos.compare in *;
    destruct (Z.compare_spec ea eb), (Z.compare_spec eb ec);
    try discriminate; destruct (Z.compare_spec ea ec); subst;
    try lia; try reflexivity;
    repeat match goal with
    | H : CompOpp (Pos.compare ?x ?y) = Lt |- _ =>
        rewrite <- (Pos.compare_antisym x y) in H
    | |- CompOpp (Pos.compare ?x ?y) = Lt =>
        rewrite <- (Pos.compare_antisym x y)
    | H : Pos.compare ?x ?y = Lt |- _ => change (Pos.lt x y) in H
    | |- Pos.compare ?x ?y = Lt => change (Pos.lt x y)
    end; lia.
Qed.

Lemma float_ltb_trans (a b c : float) :
  PrimFloat.ltb a b = true -> PrimFloat.ltb b c = true -> PrimFloat.ltb a c = true.
Proof.
  rewrite !FloatAxioms.ltb_spec. unfold SFltb.
  destruct (SFcompare (Prim2SF a) (Prim2SF b)) as [[| |] |] eqn:Hab;
    try discriminate.
  destruct (SFcompare (Prim2SF b) (Prim2SF c)) as [[| |] |] eqn:Hbc;
    try discriminate.
  now rewrite (SFcompare_Lt_trans _ _ _ Hab Hbc).
Qed.

Lemma float_ltb_leb (a b : float) :
  PrimFloat.ltb a b = true -> PrimFloat.leb a b = true.
Proof.
  rewrite FloatAxioms.leb_spec, FloatAxioms.ltb_spec. unfold SFleb, SFltb.
  destruct (SFcompare _ _) as [[| |] |]; intro L; try discriminate L; reflexivity.
Qed.

Lemma float_leb_refl (a : float) :
  PrimFloat.is_nan a = false -> PrimFloat.leb a a = true.
Proof.
  unfold PrimFloat.is_nan.
  rewrite FloatAxioms.eqb_spec, FloatAxioms.leb_spec. unfold SFeqb, SFleb.
  destruct (SFcompare _ _) as [[| |] |]; intro L; try discriminate L; reflexivity.
Qed.

(* ================================================================== *)
(** * The decisions on binary64 numbers *)
(* ================================================================== *)

(** X11: on binary64, for every pair of throttles, the combined throttle is
    0.0 under quarantine and [std::min] of the two otherwise; when neither
    is a NaN it is one of the two and at most each of them. *)
Theorem binary64_combined_throttle_is_min (brake_throttle balance_throttle : float) :
  let combined :=
    CombinedThrottleCalculator.calculate brake_throttle balance_throttle false in
  CombinedThrottleCalculator.calculate brake_throttle balance_throttle true
  = lit64 0.0
  /\ combined = std_min brake_throttle balance_throttle
  /\ (PrimFloat.is_nan brake_throttle = false ->
      PrimFloat.is_nan balance_throttle = false ->
      (combined = brake_throttle \/ combined = balance_throttle)
      /\ PrimFloat.leb combined brake_throttle = true
      /\ PrimFloat.leb combined balance_throttle = true).
Proof.
  intro combined. split; [reflexivity | split; [reflexivity |]].
  intros Ha Hb. unfold combined, CombinedThrottleCalculator.calculate, std_min.
  cbn [dltb binary64].
  destruct (PrimFloat.ltb balance_throttle brake_throttle) eqn:L.
  - split; [now right | split].
    + now apply float_ltb_leb.
    + now apply float_leb_refl.
  - split; [now left | split].
    + now apply float_leb_refl.
    + rewrite (float_leb_negb_ltb balance_throttle brake_throttle) by assumption.
      rewrite L. reflexivity.
Qed.

Lemma binary64_combined_throttle_is_min_witness :
  PrimFloat.leb
    (CombinedThrottleCalculator.calculate (lit64 0.8) (lit64 0.3) false)
    (lit64 0.8) = true.
Proof.
  apply (proj2 (proj2 (binary64_combined_throttle_is_min (lit64 0.8) (lit64 0.3))));
    reflexivity.
Defined.


(** X12: on binary64, for every debt that is not a NaN, the severity is
    HEALTHY iff debt < 3.0, WARNING iff 3.0 <= debt < 5.0, CRITICAL iff
    5.0 <= debt < 10.0 and QUARANTINE iff 10.0 <= debt. *)
Theorem binary64_severity_tiers (debt : float) :
  PrimFloat.is_nan debt = false ->
  (IDICalculator.getSeverity debt = SeverityLevel.HEALTHY
   <-> PrimFloat.ltb debt (lit64 3.0) = true)
  /\ (IDICalculator.getSeverity debt = SeverityLevel.WARNING
      <-> PrimFloat.leb (lit64 3.0) debt = true
          /\ PrimFloat.ltb debt (lit64 5.0) = true)
  /\ (IDICalculator.getSeverity debt = SeverityLevel.CRITICAL
      <-> PrimFloat.leb (lit64 5.0) debt = true
          /\ PrimFloat.ltb debt (lit64 10.0) = true)
  /\ (IDICalculator.getSeverity debt = SeverityLevel.QUARANTINE
      <-> PrimFloat.leb (lit64 10.0) debt = true).
Proof.
  intro Hnum.
  assert (H35 : PrimFloat.ltb debt (lit64 3.0) = true ->
                PrimFloat.ltb debt (lit64 5.0) = true).
  { intro L. apply (float_ltb_trans _ _ _ L). reflexivity. }
  assert (H510 : PrimFloat.ltb debt (lit64 5.0) = true ->
                 PrimFloat.ltb debt (lit64 10.0) = true).
  { intro L. apply (float_ltb_trans _ _ _ L). reflexivity. }
  rewrite (float_leb_negb_ltb debt (lit64 3.0)),
          (float_leb_negb_ltb debt (lit64 5.0)),
          (float_leb_negb_ltb debt (lit64 10.0)) by (assumption || reflexivity).
  unfold IDICalculator.getSeverity.
  change (@Thresholds.IDI_HEALTHY float binary64) with (lit64 3.0).
  change (@Thresholds.IDI_WARNING float binary64) with (lit64 5.0).
  change (@Thresholds.IDI_QUARANTINE float binary64) with (lit64 10.0).
  cbn [dltb binary64].
  destruct (PrimFloat.ltb debt (lit64 3.0)), (PrimFloat.ltb debt (lit64 5.0)),
           (PrimFloat.ltb debt (lit64 10.0));
    cbn [negb]; repeat split; intros; try discriminate; try reflexivity;
    try (specialize (H35 eq_refl); discriminate);
    try (specialize (H510 eq_refl); discriminate);
    intuition discriminate.
Qed.

Lemma binary64_severity_tiers_witness :
  IDICalculator.getSeverity (lit64 9.999) = SeverityLevel.CRITICAL.
Proof.
  apply (proj1 (proj2 (proj2 (binary64_severity_tiers (lit64 9.999) eq_refl)))).
  split; reflexivity.
Defined.

(** X13: on binary64, for every debt and health that are not NaNs and every
    quarantine time and clock reading whose tick difference fits the 64-bit
    tick count, a component can be restored iff debt < 5.0 and
    70.0 <= health and at least one hour has elapsed. *)
Theorem binary64_can_restore_iff (ticks_per_second : positive)
    (debt health : float) (quarantined_at now : time_point) :
  PrimFloat.is_nan debt = false -> PrimFloat.is_nan health = false ->
  in_ticks (now - quarantined_at) = true ->
  (NeuralPruning.canRestore ticks_per_second debt health quarantined_at now
   = Some true
   <-> PrimFloat.ltb debt (lit64 5.0) = true
       /\ PrimFloat.leb (lit64 70.0) health = true
       /\ (one_hour ticks_per_second <= now - quarantined_at)%Z).
Proof.
  intros Hdebt Hhealth Hfit. unfold NeuralPruning.canRestore, time_sub.
  rewrite Hfit. cbn [bind].
  change (@Thresholds.IDI_WARNING float binary64) with (lit64 5.0).
  change (@dlit float binary64 70.0) with (lit64 70.0).
  cbn [dltb dleb binary64].
  rewrite (float_leb_negb_ltb debt (lit64 5.0)),
          (float_leb_negb_ltb health (lit64 70.0)) by (assumption || reflexivity).
  rewrite <- duration_cast_hours_ge_1.
  destruct (PrimFloat.ltb debt (lit64 5.0)), (PrimFloat.ltb health (lit64 70.0)),
           (duration_cast_hours ticks_per_second (now - quarantined_at) <? 1)%Z;
    cbn [negb]; intuition discriminate.
Qed.

Lemma binary64_can_restore_iff_witness :
  NeuralPruning.canRestore 1000000000 (lit64 4.9) (lit64 70) 0 3600000000000
  = Some true.
Proof.
  apply (proj2 (binary64_can_restore_iff 1000000000 (lit64 4.9) (lit64 70)
                  0 3600000000000 eq_refl eq_refl eq_refl)).
  split; [reflexivity | split; [reflexivity | vm_compute; discriminate]].
Defined.

(** X14: on binary64, for every state and reading, the adjustment of the
    PID controller lies in [-0.3, 0.3] unless it is a NaN. *)
Theorem binary64_pid_adjustment_range (self : PIDController.t float)
    (current_value : float) :
  let adjustment := fst (PIDController.calculate self current_value) in
  PrimFloat.is_nan adjustment = false ->
  PrimFloat.leb (PrimFloat.opp (lit64 0.3)) adjustment = true
  /\ PrimFloat.leb adjustment (lit64 0.3) = true.
Proof.
  intro adjustment. unfold adjustment, PIDController.calculate. cbn [fst].
  set (sum := (_ / dlit 100.0)%double).
  unfold std_clamp. cbn [dltb dopp binary64].
  change (@dlit float binary64 0.3) with (lit64 0.3).
  destruct (PrimFloat.ltb sum (PrimFloat.opp (lit64 0.3))) eqn:Llo;
    [| destruct (PrimFloat.ltb (lit64 0.3) sum) eqn:Lhi]; intro Hnum.
  - split; reflexivity.
  - split; reflexivity.
  - rewrite (float_leb_negb_ltb sum (PrimFloat.opp (lit64 0.3))),
            (float_leb_negb_ltb (lit64 0.3) sum) by (assumption || reflexivity).
    rewrite Llo, Lhi. split; reflexivity.
Qed.

Lemma binary64_pid_adjustment_range_witness :
  PrimFloat.leb
    (fst (PIDController.calculate PIDController.default (lit64 (- 1000))))
    (lit64 0.3) = true.
Proof.
  apply (binary64_pid_adjustment_range PIDController.default (lit64 (- 1000))).
  vm_compute. reflexivity.
Defined.

(** X15: on binary64, for every current throttle, the decision at an
    imbalance of exactly 0.3 and of exactly -0.3 is ALERT, with the throttle
    [std::min(current_throttle + 0.3, 1.0)] and
    [std::min(current_throttle + -0.3, 1.0)]. *)
Theorem binary64_action_at_threshold_all (component_id : string)
    (current_throttle : float) (now : time_point) :
  let at_plus :=
    HardwareSoftwareBalancer.getBalancingAction (lit64 0.3) component_id
      current_throttle now in
  let at_minus :=
    HardwareSoftwareBalancer.getBalancingAction (PrimFloat.opp (lit64 0.3))
      component_id current_throttle now in
  MitigationResult.action at_plus = MitigationAction.ALERT
  /\ MitigationResult.throttle_level at_plus
     = std_min (PrimFloat.add current_throttle (lit64 0.3)) (lit64 1.0)
  /\ MitigationResult.action at_minus = MitigationAction.ALERT
  /\ MitigationResult.throttle_level at_minus
     = std_min (PrimFloat.add current_throttle (PrimFloat.opp (lit64 0.3)))
               (lit64 1.0).
Proof.
  cbv zeta. repeat split.
Qed.

(** A NaN fails every comparison. *)
Lemma is_nan_true (x : float) :
  PrimFloat.is_nan x = true -> Prim2SF x = S754_nan.
Proof.
  unfold PrimFloat.is_nan. rewrite FloatAxioms.eqb_spec. unfold SFeqb.
  destruct (Prim2SF x) as [s | s | | s m e]; cbn [SFcompare];
    try reflexivity; try (destruct s; discriminate).
  rewrite Z.compare_refl.
  destruct s; change (Pos.compare_cont Eq m m) with (Pos.compare m m);
    rewrite Pos.compare_refl; discriminate.
Qed.

Lemma float_nan_compares_false (x y : float) :
  PrimFloat.is_nan x = true ->
  PrimFloat.ltb x y = false /\ PrimFloat.ltb y x = false
  /\ PrimFloat.leb x y = false /\ PrimFloat.leb y x = false.
Proof.
  intro Hx. apply is_nan_true in Hx.
  rewrite !FloatAxioms.ltb_spec, !FloatAxioms.leb_spec, Hx.
  unfold SFltb, SFleb.
  destruct (Prim2SF y) as [s | s | | s m e]; repeat split; reflexivity.
Qed.

(** X29: on binary64, for a debt, an error rate, a health and a temperature
    that are not NaNs, a component is pruned iff its debt is at least 10.0,
    or its error rate at least 0.05, or its temperature is present and at
    least 95.0, or its health below 20.0. *)
Theorem binary64_should_prune_iff (debt error_rate health : float)
    (temperature : option float) :
  PrimFloat.is_nan debt = false -> PrimFloat.is_nan error_rate = false ->
  PrimFloat.is_nan health = false ->
  (forall temp : float, temperature = Some temp -> PrimFloat.is_nan temp = false) ->
  (NeuralPruning.shouldPrune debt error_rate health temperature = true
   <-> PrimFloat.leb (lit64 10.0) debt = true
       \/ PrimFloat.leb (lit64 0.05) error_rate = true
       \/ (exists temp : float,
             temperature = Some temp /\ PrimFloat.leb (lit64 95.0) temp = true)
       \/ PrimFloat.ltb health (lit64 20.0) = true).
Proof.
  intros Hdebt Herr Hhealth Htemp. unfold NeuralPruning.shouldPrune.
  change (@Thresholds.IDI_QUARANTINE float binary64) with (lit64 10.0).
  change (@Thresholds.TEMPERATURE_SHUTDOWN float binary64) with (lit64 95.0).
  change (@dlit float binary64 0.05) with (lit64 0.05).
  change (@dlit float binary64 20.0) with (lit64 20.0).
  cbn [dltb dleb binary64].
  destruct (PrimFloat.leb (lit64 10.0) debt); [intuition |].
  destruct (PrimFloat.leb (lit64 0.05) error_rate); [intuition |].
  destruct temperature as [temp |].
  - destruct (PrimFloat.leb (lit64 95.0) temp) eqn:Etemp.
    + split; [| reflexivity]. intros _. right. right. left.
      exists temp. split; [reflexivity | exact Etemp].
    + destruct (PrimFloat.ltb health (lit64 20.0)); [intuition |].
      split; [discriminate |].
      intros [F | [F | [(temp' & E & F) | F]]]; try discriminate F.
      injection E as <-. congruence.
  - destruct (PrimFloat.ltb health (lit64 20.0)); [intuition |].
    split; [discriminate |].
    intros [F | [F | [(temp' & E & F) | F]]]; discriminate.
Qed.

Lemma binary64_should_prune_iff_witness :
  NeuralPruning.shouldPrune (lit64 2.0) (lit64 0.0) (lit64 80.0)
    (Some (lit64 95.0)) = true.
Proof.
  apply (proj2 (binary64_should_prune_iff (lit64 2.0) (lit64 0.0) (lit64 80.0)
                  (Some (lit64 95.0)) eq_refl eq_refl eq_refl
                  ltac:(intros temp E; injection E as <-; reflexivity))).
  right. right. left. exists (lit64 95.0). split; reflexivity.
Defined.

(** X30: a debt that is a NaN is treated inconsistently.  The severity is
    QUARANTINE, the brake stops the component (throttle 0.0, action
    QUARANTINE), yet the pruning check does not prune on it (it decides as
    for a debt of 0.0) and the restore check accepts it (it decides as for a
    debt of 0.0). *)
Theorem binary64_nan_debt (debt : float) (component_id : string)
    (days loc deps : Z) (now : time_point)
    (error_rate health : float) (temperature : option float)
    (ticks_per_second : positive) (quarantined_at : time_point) :
  PrimFloat.is_nan debt = true ->
  IDICalculator.getSeverity debt = SeverityLevel.QUARANTINE
  /\ IDIBrake.calculateThrottleLevel debt = lit64 0.0
  /\ MitigationResult.action
       (IDIBrake.applyBrake component_id debt days loc deps now)
     = MitigationAction.QUARANTINE
  /\ NeuralPruning.shouldPrune debt error_rate health temperature
     = NeuralPruning.shouldPrune (lit64 0.0) error_rate health temperature
  /\ NeuralPruning.canRestore ticks_per_second debt health quarantined_at now
     = NeuralPruning.canRestore ticks_per_second (lit64 0.0) health
         quarantined_at now.
Proof.
  intro Hnan.
  assert (Hlt : forall y : float, PrimFloat.ltb debt y = false)
    by (intro y; apply (float_nan_compares_false debt y Hnan)).
  assert (Hle : forall y : float, PrimFloat.leb y debt = false)
    by (intro y; apply (float_nan_compares_false debt y Hnan)).
  unfold IDIBrake.applyBrake, IDIBrake.calculateThrottleLevel,
    IDICalculator.getSeverity, NeuralPruning.shouldPrune,
    NeuralPruning.canRestore.
  cbn [MitigationResult.action dltb dleb binary64].
  rewrite !Hlt, !Hle. cbn [fst].
  repeat split; reflexivity.
Qed.

Lemma binary64_nan_debt_witness :
  IDICalculator.getSeverity PrimFloat.nan = SeverityLevel.QUARANTINE
  /\ IDIBrake.calculateThrottleLevel PrimFloat.nan = lit64 0.0
  /\ MitigationResult.action
       (IDIBrake.applyBrake "component" PrimFloat.nan 0 0 0 3600000000000)
     = MitigationAction.QUARANTINE
  /\ NeuralPruning.shouldPrune PrimFloat.nan (lit64 0.0) (lit64 80.0) None
     = NeuralPruning.shouldPrune (lit64 0.0) (lit64 0.0) (lit64 80.0) None
  /\ NeuralPruning.canRestore 1000000000 PrimFloat.nan (lit64 80.0)
       0 3600000000000
     = NeuralPruning.canRestore 1000000000 (lit64 0.0) (lit64 80.0)
         0 3600000000000.
Proof.
  apply (binary64_nan_debt PrimFloat.nan "component" 0 0 0 3600000000000
           (lit64 0.0) (lit64 80.0) None 1000000000 0).
  reflexivity.
Defined.

(* ================================================================== *)
(** * Rounded arithmetic: the prediction, the controller, the smoothing *)
(* ================================================================== *)

(** The properties below hinge on the rounding of a product, a sum or a
    quotient; they are stated on binary64, the arithmetic of the compiled
    program. *)

(** ** The truncated product of the prediction *)

Lemma Qtrunc_inject_Z (z : Z) : Qtrunc (inject_Z z) = z.
Proof. unfold Qtrunc. cbn [inject_Z Qnum Qden]. apply Z.quot_1_r. Qed.

Lemma Qtrunc_opp (q : Q) : Qtrunc (- q) = (- Qtrunc q)%Z.
Proof.
  unfold Qtrunc. destruct q as [n d]. cbn [Qopp Qnum Qden].
  apply Z.quot_opp_l. discriminate.
Qed.

(** [static_cast<int>] on a double keeps the integer part of its value. *)
Lemma float_trunc_value (x : float) :
  float_trunc x = option_map Qtrunc (float_value x).
Proof.
  unfold float_trunc, float_value.
  destruct (Prim2SF x) as [s | s | | s m e]; try reflexivity.
  cbn [option_map]. f_equal.
  assert (E : Qtrunc match e with
                     | Z0 => inject_Z (Zpos m)
                     | Zpos k => inject_Z (Zpos m * 2 ^ Zpos k)
                     | Zneg k => (Zpos m # 2 ^ k)%Q
                     end
              = match e with
                | Z0 => Zpos m
                | Zpos k => (Zpos m * 2 ^ Zpos k)%Z
                | Zneg k => (Zpos m / 2 ^ Zpos k)%Z
                end).
  { destruct e as [| k | k].
    - apply Qtrunc_inject_Z.
    - apply Qtrunc_inject_Z.
    - unfold Qtrunc. cbn [Qnum Qden]. rewrite Pos2Z.inj_pow.
      apply Z.quot_div_nonneg; [lia |]. apply Z.pow_pos_nonneg; lia. }
  destruct s.
  - rewrite Qtrunc_opp, E. reflexivity.
  - symmetry. exact E.
Qed.

(** C4, amended: for every days, loc, deps and rate and every [int]
    days_ahead, [predictIDI days loc deps days_ahead rate] is the score
    [calculate (days + days_ahead) (loc + extra) deps], where [extra] is the
    binary64 product [rate * days_ahead] truncated toward zero, not rounded
    to the nearest integer.  The result is undefined when the product is an
    infinity or a NaN, and when the truncated product or one of the two
    [int] additions leaves the range of [int]. *)
Theorem predict_truncates (days loc deps days_ahead : Z) (daily_loc_rate : float) :
  in_int days_ahead = true ->
  let projected := PrimFloat.mul daily_loc_rate (float_of_Z days_ahead) in
  IDICalculator.predictIDI days loc deps days_ahead daily_loc_rate
  = match float_value projected with
    | Some lines =>
        let extra_loc := Qtrunc lines in
        if in_int (days + days_ahead) && in_int extra_loc
           && in_int (loc + extra_loc)
        then Some (IDICalculator.calculate (days + days_ahead)
                     (loc + extra_loc) deps)
        else None
    | None => None
    end
  /\ (forall lines : Q, float_value projected = Some lines ->
        (0 <= lines ->
         inject_Z (Qtrunc lines) <= lines < inject_Z (Qtrunc lines) + 1)
        /\ (lines <= 0 ->
            inject_Z (Qtrunc lines) - 1 < lines <= inject_Z (Qtrunc lines))).
Proof.
  intros _ projected. split.
  - unfold IDICalculator.predictIDI, int_add.
    cbn [to_int dmul of_int binary64]. fold projected.
    unfold float_to_int. rewrite float_trunc_value.
    destruct (float_value projected) as [lines |]; cbn [option_map bind].
    + destruct (in_int (days + days_ahead)); cbn [bind andb]; [| reflexivity].
      destruct (in_int (Qtrunc lines)); cbn [bind andb]; [| reflexivity].
      destruct (in_int (loc + Qtrunc lines)); reflexivity.
    + destruct (in_int (days + days_ahead)); reflexivity.
  - intros lines _. apply Qtrunc_toward_zero.
Qed.

(** C4, at an instance where the rounding of the product matters: the
    binary64 product of 0.29 and 100 lies just below 29, so 28 lines are
    projected and the prediction is the score of 1028 lines. *)
Lemma predict_truncates_witness :
  IDICalculator.predictIDI 0 1000 10 100 (lit64 0.29)
  = Some (IDICalculator.calculate 100 1028 10).
Proof.
  exact (proj1 (predict_truncates 0 1000 10 100 (lit64 0.29) eq_refl)).
Defined.

(** ** The integral of the controller *)






(** ** The window mean of the balancer *)

Lemma fold_left_map_acc {A B C : Type} (f : A -> C -> A) (g : B -> C)
    (l : list B) (start : A) :
  fold_left (fun acc x => f acc (g x)) l start = fold_left f (map g l) start.
Proof.
  revert start. induction l as [| x rest IH]; intro start.
  - reflexivity.
  - cbn [fold_left map]. apply IH.
Qed.

(** The loop of [balance] adds up the imbalances of the last ten entries,
    oldest first, in the arithmetic of [double]. *)
Lemma sum_recent_most_recent {double : Type} `{DoubleOps double}
    (history : list (BalanceMetrics.t double)) :
  HardwareSoftwareBalancer.sum_recent history
  = fold_left dadd
      (map (@BalanceMetrics.imbalance double) (most_recent 10 history))
      (dlit 0.0).
Proof.
  unfold HardwareSoftwareBalancer.sum_recent,
    HardwareSoftwareBalancer.moving_avg_window_.
  rewrite most_recent_skipn. apply fold_left_map_acc.
Qed.

(** C8: after every call of [HardwareSoftwareBalancer::balance] the history
    holds at most 20 entries: it is the old history with the new sample
    appended and the oldest entries beyond 20 dropped from the front.  The
    decision is [getBalancingAction] on the arithmetic mean of the
    imbalances of the 10 most recent entries when the history holds at least
    10 entries, and on the imbalance of the current snapshot otherwise.  The
    mean is the one binary64 computes: the ten imbalances added up from 0.0,
    oldest first, and the total divided by 10.0, every operation rounded. *)
Theorem balance_history_and_smoothing (self : HardwareSoftwareBalancer.t float)
    (telemetry : TelemetryData.t float) (current_throttle : float)
    (now_record now_result : time_point) :
  let hw := HardwareSoftwareBalancer.calculateHardwareCapacity telemetry in
  let sw := HardwareSoftwareBalancer.calculateSoftwareDemand self telemetry in
  let instantaneous := HardwareSoftwareBalancer.calculateImbalance hw sw in
  let sample := {| BalanceMetrics.hw_capacity := hw;
                   BalanceMetrics.sw_demand := sw;
                   BalanceMetrics.imbalance := instantaneous;
                   BalanceMetrics.timestamp := now_record |} in
  let outcome :=
    HardwareSoftwareBalancer.balance self telemetry current_throttle
      now_record now_result in
  let history := HardwareSoftwareBalancer.history_ (snd outcome) in
  (length history <= 2 * HardwareSoftwareBalancer.moving_avg_window_)%nat
  /\ (2 * HardwareSoftwareBalancer.moving_avg_window_ = 20)%nat
  /\ history
     = skipn (length (HardwareSoftwareBalancer.history_ self ++ [sample]) - 20)
             (HardwareSoftwareBalancer.history_ self ++ [sample])
  /\ fst outcome
     = HardwareSoftwareBalancer.getBalancingAction
         (if (10 <=? length history)%nat
          then mean64 (map (@BalanceMetrics.imbalance float)
                         (most_recent 10 history))
          else instantaneous)
         (TelemetryData.component_id telemetry) current_throttle now_result.
Proof.
  intros hw sw instantaneous sample outcome history.
  assert (Hhist : history
    = HardwareSoftwareBalancer.bound_history
        (HardwareSoftwareBalancer.history_ self ++ [sample])) by reflexivity.
  split; [| split; [reflexivity | split]].
  - rewrite Hhist, bound_history_length.
    unfold HardwareSoftwareBalancer.moving_avg_window_. lia.
  - rewrite Hhist. apply bound_history_skipn.
  - unfold outcome, HardwareSoftwareBalancer.balance.
    fold hw. fold sw. fold instantaneous. fold sample. rewrite <- Hhist.
    cbn [fst]. unfold HardwareSoftwareBalancer.moving_avg_window_.
    destruct (Nat.leb_spec 10 (length history)) as [Hfull | Hshort];
      [| reflexivity].
    rewrite sum_recent_most_recent. unfold mean64.
    rewrite length_map, most_recent_length by exact Hfull. reflexivity.
Qed.

(** C8, at an instance: a balancer whose history is full (20 entries of
    imbalance 0.3) is given the scenario snapshot.  The oldest entry is
    evicted, and the decision is made on the mean of the last ten entries,
    nine of 0.3 and the new one. *)
Lemma balance_history_and_smoothing_witness :
  let outcome :=
    HardwareSoftwareBalancer.balance full_balancer64 scenario_snapshot64
      (lit64 0.5) 7 8 in
  HardwareSoftwareBalancer.history_ (snd outcome)
  = skipn 1 (HardwareSoftwareBalancer.history_ full_balancer64
             ++ [scenario_sample64 7])
  /\ fst outcome
     = HardwareSoftwareBalancer.getBalancingAction
         (mean64 (map (@BalanceMetrics.imbalance float)
                    (most_recent 10
                       (HardwareSoftwareBalancer.history_ (snd outcome)))))
         "component" (lit64 0.5) 8.
Proof.
  exact (proj2 (proj2 (balance_history_and_smoothing full_balancer64
                         scenario_snapshot64 (lit64 0.5) 7 8))).
Defined.

(* ================================================================== *)
(** * Replay on IEEE 754 binary64 *)
(* ================================================================== *)

(** The same definitions, run on the kernel's binary64 numbers at the points
    the properties above name.  Where a value is not representable the
    double nearest to it comes out, or its neighbour; the examples say where
    that changes an integer or a verdict. *)

Example binary64_combined_throttle :
  CombinedThrottleCalculator.calculate (lit64 0.8) (lit64 0.3) false = lit64 0.3
  /\ CombinedThrottleCalculator.calculate (lit64 0.8) (lit64 0.3) true = lit64 0.0.
Proof. split; vm_compute; reflexivity. Qed.

Example binary64_severity :
  map IDICalculator.getSeverity
      [lit64 2.999; lit64 3.0; lit64 4.999; lit64 5.0; lit64 6.999; lit64 7.0;
       lit64 9.999; lit64 10.0]
  = [SeverityLevel.HEALTHY; SeverityLevel.WARNING; SeverityLevel.WARNING;
     SeverityLevel.CRITICAL; SeverityLevel.CRITICAL; SeverityLevel.CRITICAL;
     SeverityLevel.CRITICAL; SeverityLevel.QUARANTINE].
Proof. vm_compute. reflexivity. Qed.

(** The curve at its breakpoints; just below 10.0 it is still above 0.1,
    and at 7.0 it is far from the 0.54 of a single 0.7 -> 0.3 segment. *)
Example binary64_brake_curve :
  map IDIBrake.calculateThrottleLevel [lit64 3.0; lit64 5.0; lit64 7.0; lit64 10.0]
  = [lit64 1.0; lit64 0.7; lit64 0.3; lit64 0.0]
  /\ PrimFloat.ltb (lit64 0.1) (IDIBrake.calculateThrottleLevel (lit64 9.999999))
     = true
  /\ PrimFloat.ltb (IDIBrake.calculateThrottleLevel (lit64 7.0)) (lit64 0.54)
     = true.
Proof. repeat split; vm_compute; reflexivity. Qed.

(** 0.75 projected lines are truncated to 0: the prediction is the score of
    1000 lines, not the score of 1001 lines that rounding would give. *)
Example binary64_predict :
  IDICalculator.predictIDI 0 1000 10 1 (lit64 0.75)
  = Some (IDICalculator.calculate 1 1000 10)
  /\ PrimFloat.ltb (IDICalculator.calculate 1 1000 10)
                   (IDICalculator.calculate 1 1001 10) = true.
Proof. split; vm_compute; reflexivity. Qed.

(** The scenario: capacity 40, demand 57.7, an imbalance within one unit in
    the last place of -0.177, and the action NONE. *)
Example binary64_scenario :
  let hw := HardwareSoftwareBalancer.calculateHardwareCapacity scenario_snapshot64 in
  let sw := HardwareSoftwareBalancer.calculateSoftwareDemand
              HardwareSoftwareBalancer.default scenario_snapshot64 in
  let verdict :=
    fst (HardwareSoftwareBalancer.balance HardwareSoftwareBalancer.default
           scenario_snapshot64 (lit64 1.0) 0 0) in
  hw = lit64 40
  /\ sw = lit64 57.7
  /\ PrimFloat.next_down (lit64 (- 0.177))
     = HardwareSoftwareBalancer.calculateImbalance hw sw
  /\ MitigationResult.action verdict = MitigationAction.NONE
  /\ MitigationResult.throttle_level verdict = lit64 1.0.
Proof. cbv zeta. repeat split; vm_compute; reflexivity. Qed.

(** The default controller read 1000 times at a utilisation of -1000: the
    adjustment is 0.3 and the integral ends at 50. *)
Example binary64_pid_saturation :
  fst (PIDController.calculate PIDController.default (lit64 (- 1000))) = lit64 0.3
  /\ PIDController.integral_
       (PIDController.run PIDController.default (repeat (lit64 (- 1000)) 1000))
     = lit64 50.
Proof. split; vm_compute; reflexivity. Qed.

Example binary64_can_restore :
  NeuralPruning.canRestore 1000000000 (lit64 0) (lit64 100) 0
    (59 * one_minute 1000000000) = Some false
  /\ NeuralPruning.canRestore 1000000000 (lit64 4.9) (lit64 70) 0
       (60 * one_minute 1000000000) = Some true.
Proof. split; vm_compute; reflexivity. Qed.

(** The time points are 64-bit tick counts: for a quarantine time at the
    far end of the range the elapsed time does not fit, and the call is
    undefined once both guards have passed. *)
Example can_restore_far_past :
  NeuralPruning.canRestore 1000000000 (lit64 0) (lit64 100) TICKS_MIN 0 = None
  /\ NeuralPruning.canRestore 1000000000 (lit64 5) (lit64 100) TICKS_MIN 0
     = Some false.
Proof. split; vm_compute; reflexivity. Qed.

(** The conversion of an [int] to [double] is exact: converting back gives
    the [int], at the ends of the range as well. *)
Example binary64_int_conversion :
  map (fun z => float_to_int (float_of_Z z))
      [INT_MIN; (- 1000)%Z; (- 1)%Z; 0%Z; 1%Z; 100%Z; 1000%Z; INT_MAX]
  = map (@Some Z)
      [INT_MIN; (- 1000)%Z; (- 1)%Z; 0%Z; 1%Z; 100%Z; 1000%Z; INT_MAX].
Proof. vm_compute. reflexivity. Qed.

(** The product 0.29 * 100 rounds to the double just below 29, so the
    program projects 28 lines and predicts 102.8, where exact arithmetic
    projects 29 lines. *)
Example binary64_predict_rounded_product :
  PrimFloat.ltb (PrimFloat.mul (lit64 0.29) (float_of_Z 100)) (lit64 29) = true
  /\ IDICalculator.predictIDI 0 1000 10 100 (lit64 0.29)
     = Some (IDICalculator.calculate 100 1028 10)
  /\ IDICalculator.calculate 100 1028 10 = lit64 102.8
  /\ IDICalculator.predictIDI 0 1000 10 100 0.29%Q
     = Some (IDICalculator.calculate 100 1029 10).
Proof. repeat split; vm_compute; reflexivity. Qed.

(** Gains that overflow, or two readings of infinity in a row, make the
    adjustment a NaN, which the final clamp lets through. *)
Example binary64_pid_not_a_number :
  PrimFloat.is_nan
    (fst (PIDController.calculate overflowing_controller64
            (PrimFloat.opp (1e10)%float))) = true
  /\ PrimFloat.is_nan
       (fst (PIDController.calculate
               (snd (PIDController.calculate PIDController.default
                       PrimFloat.infinity))
               PrimFloat.infinity)) = true.
Proof. split; vm_compute; reflexivity. Qed.

(** The sums of the integral are rounded: from the lower limit -50, 125
    readings with an error of 0.8, which add up to 100 exactly, leave the
    integral just below 50; the 126th reaches the limit. *)
Example binary64_pid_rounded_sums :
  PrimFloat.sub (PIDController.target_ lowered_controller64) (lit64 0)
  = lit64 0.8
  /\ PIDController.integral_ lowered_controller64 = lit64 (- 50)
  /\ PrimFloat.mul (float_of_Z 125) (lit64 0.8) = lit64 100
  /\ PrimFloat.ltb
       (PIDController.integral_
          (PIDController.run lowered_controller64 (repeat (lit64 0) 125)))
       (lit64 50) = true
  /\ PIDController.integral_
       (PIDController.run lowered_controller64 (repeat (lit64 0) 126))
     = lit64 50.
Proof. repeat split; vm_compute; reflexivity. Qed.

(** Ten snapshots of imbalance 0.3 in a row: the first nine decisions are
    made on 0.3 itself and are ALERT; the tenth is made on the rounded mean
    of ten times 0.3, the double just below 0.3, and is NONE. *)
Example binary64_steady_imbalance :
  let verdicts :=
    fst (balance_all64 HardwareSoftwareBalancer.default
           (repeat steady_snapshot64 10) (lit64 0.5)) in
  HardwareSoftwareBalancer.calculateImbalance
    (HardwareSoftwareBalancer.calculateHardwareCapacity steady_snapshot64)
    (HardwareSoftwareBalancer.calculateSoftwareDemand
       HardwareSoftwareBalancer.default steady_snapshot64) = lit64 0.3
  /\ map (@MitigationResult.action float) verdicts
     = repeat MitigationAction.ALERT 9 ++ [MitigationAction.NONE]
  /\ map (@MitigationResult.imbalance float) verdicts
     = repeat (lit64 0.3) 9 ++ [PrimFloat.next_down (lit64 0.3)]
  /\ mean64 (repeat (lit64 0.3) 10) = PrimFloat.next_down (lit64 0.3).
Proof. cbv zeta. repeat split; vm_compute; reflexivity. Qed.

Example binary64_action_at_threshold :
  let at_plus :=
    HardwareSoftwareBalancer.getBalancingAction (lit64 0.3) "component"
      (lit64 0.4) 0 in
  let at_minus :=
    HardwareSoftwareBalancer.getBalancingAction (PrimFloat.opp (lit64 0.3))
      "component" (lit64 0.4) 0 in
  MitigationResult.action at_plus = MitigationAction.ALERT
  /\ MitigationResult.throttle_level at_plus = PrimFloat.add (lit64 0.4) (lit64 0.3)
  /\ MitigationResult.action at_minus = MitigationAction.ALERT
  /\ MitigationResult.throttle_level at_minus = PrimFloat.sub (lit64 0.4) (lit64 0.3)
  /\ PrimFloat.ltb (MitigationResult.throttle_level at_minus) (lit64 0.2) = true.
Proof. cbv zeta. repeat split; vm_compute; reflexivity. Qed.

(** A NaN is not a number and lies outside the properties above: it fails
    every comparison, so it falls through every guard of the header. *)
Example binary64_nan_falls_through :
  IDICalculator.getSeverity PrimFloat.nan = SeverityLevel.QUARANTINE
  /\ IDIBrake.calculateThrottleLevel PrimFloat.nan = lit64 0.0
  /\ PrimFloat.is_nan
       (fst (PIDController.calculate PIDController.default PrimFloat.nan)) = true.
Proof. repeat split; vm_compute; reflexivity. Qed.
